(** * eclean-kernel: the Bootloader Specification layout

    A shallow embedding of [ecleankernel/layout/blspec.py]: the layout
    constructor [BlSpecLayout.__init__] and the kernel discovery
    [BlSpecLayout.find_kernels], together with the properties of the
    grouping of boot entries and module trees into [Kernel] records.

    A Python [str] is embedded as the string of the octets of its UTF-8
    encoding; [str.strip] removes every character for which [str.isspace]
    holds, the ones beyond ASCII included.  The file system is the
    interface of the calls the code makes ([open], [is_dir], [is_symlink],
    [os.listdir], the [KernelImage] constructor); every call is recorded in
    a trace, so that the order of effects can be stated. *)

From Stdlib Require Import Ascii String.
From stdpp Require Import base option list strings gmap fin_maps.

(** ** Text *)

Module Text.

(** [str.startswith] for a one-character prefix. *)
Definition startswith (c : ascii) (s : string) : bool :=
  match s with
  | String c' _ => Ascii.eqb c' c
  | EmptyString => false
  end.

(** The ASCII characters for which [str.isspace] holds:
    TAB, LF, VT, FF, CR, the separators FS, GS, RS, US, and space. *)
Definition isspace (c : ascii) : bool :=
  let n := nat_of_ascii c in
  ((9 <=? n) && (n <=? 13) || (28 <=? n) && (n <=? 32))%nat.

(** The other characters for which [str.isspace] holds, by their UTF-8
    encodings.  Two octets: U+0085 (C2 85) and U+00A0 (C2 A0). *)
Definition isspace2 (a b : ascii) : bool :=
  let x := nat_of_ascii a in
  let y := nat_of_ascii b in
  ((x =? 194) && ((y =? 133) || (y =? 160)))%nat.

(** Three octets: U+1680 (E1 9A 80), U+2000 to U+200A (E2 80 80 to E2 80 8A),
    U+2028 (E2 80 A8), U+2029 (E2 80 A9), U+202F (E2 80 AF),
    U+205F (E2 81 9F) and U+3000 (E3 80 80). *)
Definition isspace3 (a b c : ascii) : bool :=
  let x := nat_of_ascii a in
  let y := nat_of_ascii b in
  let z := nat_of_ascii c in
  (((x =? 225) && (y =? 154) && (z =? 128))
   || ((x =? 226) && (y =? 128)
       && (((128 <=? z) && (z <=? 138)) || (z =? 168) || (z =? 169) || (z =? 175)))
   || ((x =? 226) && (y =? 129) && (z =? 159))
   || ((x =? 227) && (y =? 128) && (z =? 128)))%nat.

(** Removal of the leading whitespace characters.  With [reversed] the
    string is read backwards, so that the octets of a character come last
    octet first. *)
Fixpoint lstrip_octets (reversed : bool) (s : string) : string :=
  match s with
  | EmptyString => EmptyString
  | String a s1 =>
      if isspace a then lstrip_octets reversed s1 else
      match s1 with
      | EmptyString => s
      | String b s2 =>
          if (if reversed then isspace2 b a else isspace2 a b)
          then lstrip_octets reversed s2 else
          match s2 with
          | EmptyString => s
          | String c s3 =>
              if (if reversed then isspace3 c b a else isspace3 a b c)
              then lstrip_octets reversed s3 else s
          end
      end
  end.

Definition reverse (s : string) : string :=
  string_of_list_ascii (List.rev (list_ascii_of_string s)).

(** [str.lstrip()] and [str.rstrip()] *)
Definition lstrip (s : string) : string := lstrip_octets false s.

Definition rstrip (s : string) : string :=
  reverse (lstrip_octets true (reverse s)).

(** [str.strip()] *)
Definition strip (s : string) : string := rstrip (lstrip s).

(** [s.split(sep)] for a one-character separator. *)
Fixpoint split (sep : ascii) (s : string) : list string :=
  match s with
  | EmptyString => [EmptyString]
  | String c s' =>
      if Ascii.eqb c sep then EmptyString :: split sep s'
      else match split sep s' with
           | w :: ws => String c w :: ws
           | [] => [String c EmptyString]
           end
  end.

Fixpoint contains (c : ascii) (s : string) : bool :=
  match s with
  | EmptyString => false
  | String c' s' => Ascii.eqb c' c || contains c s'
  end.

End Text.

(** ** Paths

    A [pathlib] path is the list of its parts; an absolute path starts with
    the anchor part ["/"] (or ["//"]), as in [PurePosixPath.parts]. *)

Abbreviation Path := (list string).

Module PathOps.

Definition is_part (c : string) : bool :=
  negb (String.eqb c "") && negb (String.eqb c ".").

(** The parts of a relative path string: empty parts and ["."] vanish. *)
Definition parts (s : string) : list string :=
  List.filter is_part (Text.split "/" s).

Definition anchor (s : string) : string :=
  match s with
  | String "/" (String "/" (String "/" _)) => "/"
  | String "/" (String "/" _) => "//"
  | _ => "/"
  end.

(** [p / s]: joining with an absolute path replaces [p]. *)
Definition joinpath (p : Path) (s : string) : Path :=
  if Text.startswith "/" s then anchor s :: parts s else p ++ parts s.

(** A name as [os.listdir] returns them: one part, not empty, no slash. *)
Definition is_name (s : string) : bool :=
  negb (String.eqb s "") && negb (String.eqb s ".") && negb (Text.contains "/" s).

End PathOps.

Declare Scope path_scope.
Delimit Scope path_scope with path.
Infix "/" := PathOps.joinpath : path_scope.

(** ** The data model *)

(** Modelled from the spec: [KernelFileType] of [ecleankernel/file.py], the
    closed set of tags that classify a file; the spec names KERNEL,
    INITRAMFS, MODULES and MISC, and the tag of an [EmptyDirectory] record is
    a tag of its own. *)
Inductive KernelFileType :=
| KERNEL
| INITRAMFS
| MODULES
| MISC
| EMPTYDIR.

#[global] Instance KernelFileType_eq_dec : EqDecision KernelFileType.
Proof. solve_decision. Defined.

(** Modelled from the spec: the file records of [ecleankernel/file.py].  A
    record identifies a path and its type; a [KernelImage] is a KERNEL record
    that also carries the internal version read from the image. *)
Inductive FileRecord :=
| GenericFile (path : Path) (ftype : KernelFileType)
| KernelImage (path : Path) (internal_version : string)
| EmptyDirectory (path : Path).

#[global] Instance FileRecord_eq_dec : EqDecision FileRecord.
Proof. solve_decision. Defined.

Definition ftype (f : FileRecord) : KernelFileType :=
  match f with
  | GenericFile _ t => t
  | KernelImage _ _ => KERNEL
  | EmptyDirectory _ => EMPTYDIR
  end.

Definition path (f : FileRecord) : Path :=
  match f with
  | GenericFile p _ | KernelImage p _ | EmptyDirectory p => p
  end.

Definition is_kernel_image (f : FileRecord) : bool :=
  match f with KernelImage _ _ => true | _ => false end.

Definition is_empty_directory (f : FileRecord) : bool :=
  match f with EmptyDirectory _ => true | _ => false end.

Definition is_kernel_typed (f : FileRecord) : bool :=
  bool_decide (ftype f = KERNEL).

(** Modelled from the spec: [Kernel] of [ecleankernel/kernel.py], a display
    version and the ordered list of the records the kernel owns; a new
    [Kernel(version)] owns nothing. *)
Record Kernel := mkKernel {
  version : string;
  all_files : list FileRecord;
}.

#[global] Instance Kernel_eq_dec : EqDecision Kernel.
Proof. solve_decision. Defined.

Definition Kernel_new (version : string) : Kernel :=
  {| version := version; all_files := [] |}.

(** [k.all_files.extend(fobjs)] and [k.all_files.append(fobj)] *)
Definition extend (k : Kernel) (fobjs : list FileRecord) : Kernel :=
  {| version := version k; all_files := all_files k ++ fobjs |}.

Definition append (k : Kernel) (fobj : FileRecord) : Kernel :=
  extend k [fobj].

(** Modelled from the spec: the property [Kernel.real_kv], the internal
    version discovered from the kernel's [KernelImage], if it has one. *)
Fixpoint first_internal_version (fobjs : list FileRecord) : option string :=
  match fobjs with
  | [] => None
  | KernelImage _ v :: _ => Some v
  | _ :: rest => first_internal_version rest
  end.

Definition real_kv (k : Kernel) : option string :=
  first_internal_version (all_files k).

(** ** Insertion-ordered dictionaries

    [kernels] is a Python [dict]: its values are listed in the order in
    which their keys were first inserted. *)

Module Dict.
Section Dict.
Context {V : Type}.

Fixpoint get (key : string) (d : list (string * V)) : option V :=
  match d with
  | [] => None
  | (k, v) :: d' => if decide (k = key) then Some v else get key d'
  end.

(** [d[key] = v] *)
Fixpoint set (key : string) (v : V) (d : list (string * V)) : list (string * V) :=
  match d with
  | [] => [(key, v)]
  | (k, v') :: d' =>
      if decide (k = key) then (k, v) :: d' else (k, v') :: set key v d'
  end.

(** [d.setdefault(key, v)]: the dictionary afterwards. *)
Definition setdefault (key : string) (v : V) (d : list (string * V)) : list (string * V) :=
  match get key d with
  | Some _ => d
  | None => set key v d
  end.

(** Mutation of the object stored at [key]. *)
Fixpoint update (key : string) (f : V -> V) (d : list (string * V)) : list (string * V) :=
  match d with
  | [] => []
  | (k, v) :: d' =>
      if decide (k = key) then (k, f v) :: d' else (k, v) :: update key f d'
  end.

Definition keys (d : list (string * V)) : list string := d.*1.
Definition values (d : list (string * V)) : list V := d.*2.
End Dict.
End Dict.

(** ** Effects: a trace of calls and an exception *)

Inductive event :=
| EvOpen (p : Path)
| EvIsDir (p : Path)
| EvIsSymlink (p : Path)
| EvListDir (p : Path)
| EvKernelImage (p : Path)
| EvGetModuleDict (exclusions : list KernelFileType) (module_directory : Path)
| EvLogDebug (msg : string).

Inductive exn :=
| AssertionError
| LayoutNotFound (msg : string)
| OSError (p : Path)
| KernelImageFailure (p : Path).

#[global] Instance event_eq_dec : EqDecision event.
Proof. solve_decision. Defined.
#[global] Instance exn_eq_dec : EqDecision exn.
Proof. solve_decision. Defined.

(** A computation yields the trace of what it did and either an exception
    or a value. *)
Definition M (A : Type) : Type := list event * (exn + A).

Definition trace {A} (m : M A) : list event := m.1.
Definition outcome {A} (m : M A) : exn + A := m.2.

#[global] Instance M_ret : MRet M := λ A a, ([], inr a).
#[global] Instance M_bind : MBind M := λ A B f m,
  match m.2 with
  | inl e => (m.1, inl e)
  | inr a => let r := f a in (m.1 ++ r.1, r.2)
  end.

Definition raise {A} (e : exn) : M A := ([], inl e).
Definition emit (ev : event) : M unit := ([ev], inr tt).

(** A [for] loop that threads the loop state. *)
Fixpoint foldM {A B} (f : A -> B -> M A) (l : list B) (a : A) : M A :=
  match l with
  | [] => mret a
  | b :: l' => a' ← f a b; foldM f l' a'
  end.

(** ** The file system and the collaborators *)

Inductive open_result :=
| Contents (text : string)
| FileNotFoundError
| OpenError.

(** Modelled from the spec: the constructor [KernelImage(path)] of
    [ecleankernel/file.py], which reads the internal version from the image
    or raises [UnrecognizedKernelError]; like every call it may also fail
    with another exception (the path is a directory, a decompressor is
    missing), which [ImageFailure] stands for. *)
Inductive image_result :=
| Parsed (internal_version : string)
| UnrecognizedKernelError (err : string)
| ImageFailure.

Record FileSystem := {
  fs_open : Path -> open_result;
  fs_is_dir : Path -> bool;
  fs_is_symlink : Path -> bool;
  fs_listdir : Path -> option (list string);
  fs_kernel_image : Path -> image_result;
}.

(** The interface [ModuleDirLayout] that [BlSpecLayout] inherits:
    [get_module_dict] maps the name of each module tree to its records, or
    fails on a file system error.  The mapping is a Python [dict]:
    [module_items] is [module_dict.items()], its entries in the order in
    which the collector inserted them. *)
Class ModuleDirLayout := {
  get_module_dict :
    FileSystem -> list KernelFileType -> Path -> option (gmap string (list FileRecord));
  module_items :
    gmap string (list FileRecord) -> list (string * list FileRecord);
  module_items_perm :
    forall module_dict, module_items module_dict ≡ₚ map_to_list module_dict;
}.

(** ** The calls of the code, with their events *)

Section Calls.
Variable fs : FileSystem.

(** [open(p).read()] under [try ... except FileNotFoundError]: a missing
    file is [None]; any other failure propagates. *)
Definition open_read (p : Path) : M (option string) :=
  emit (EvOpen p);;
  match fs_open fs p with
  | Contents text => mret (Some text)
  | FileNotFoundError => mret None
  | OpenError => raise (OSError p)
  end.

Definition is_dir (p : Path) : M bool :=
  emit (EvIsDir p);; mret (fs_is_dir fs p).

Definition is_symlink (p : Path) : M bool :=
  emit (EvIsSymlink p);; mret (fs_is_symlink fs p).

Definition listdir (p : Path) : M (list string) :=
  emit (EvListDir p);;
  match fs_listdir fs p with
  | Some names => mret names
  | None => raise (OSError p)
  end.

(** [KernelImage(path)] under [try ... except UnrecognizedKernelError]:
    the internal version, or the message of the error that is caught; any
    other exception propagates. *)
Definition KernelImage_init (p : Path) : M (string + string) :=
  emit (EvKernelImage p);;
  match fs_kernel_image fs p with
  | Parsed internal_version => mret (inr internal_version)
  | UnrecognizedKernelError err => mret (inl err)
  | ImageFailure => raise (KernelImageFailure p)
  end.

Definition logging_debug (msg : string) : M unit :=
  emit (EvLogDebug msg).

Definition call_get_module_dict `{ModuleDirLayout}
    (exclusions : list KernelFileType) (module_directory : Path)
  : M (gmap string (list FileRecord)) :=
  emit (EvGetModuleDict exclusions module_directory);;
  match get_module_dict fs exclusions module_directory with
  | Some module_dict => mret module_dict
  | None => raise (OSError module_directory)
  end.

End Calls.

(** ** [class BlSpecLayout(ModuleDirLayout)] *)

Module BlSpecLayout.

(** The state of a layout object: [self.root] and [self.bootdir]. *)
Record t := mk {
  root : Path;
  bootdir : Path;
}.

Definition name : string := "blspec".

Definition potential_dirs : list string :=
  ["boot/EFI"; "boot/efi"; "boot"; "efi"].

Definition name_map : gmap string KernelFileType :=
  <["initrd" := INITRAMFS]> (<["linux" := KERNEL]> ∅).

(** The candidate files of the machine identity, in the order of the
    first loop of [__init__]. *)
Definition id_paths : list string :=
  ["etc/kernel/entry-token"; "etc/machine-id"].

Section Methods.
Variable fs : FileSystem.
Context `{ModuleDirLayout}.

(** The first loop of [__init__]: the first candidate that opens gives
    [kernel_id]; the [else] of the loop raises. *)
Fixpoint read_kernel_id (root : Path) (paths : list string) : M string :=
  match paths with
  | [] => raise (LayoutNotFound "/etc/machine-id not found")
  | path :: rest =>
      r ← open_read fs (root / path)%path;
      match r with
      | Some text => mret (Text.strip text)
      | None => read_kernel_id root rest
      end
  end.

(** The second loop of [__init__]. *)
Fixpoint probe_bootdir (root : Path) (kernel_id : string) (dirs : list string)
  : M Path :=
  match dirs with
  | [] => raise (LayoutNotFound ("/boot/[EFI/]" +:+ kernel_id +:+ " not found"))
  | d :: rest =>
      let bootdir := (root / d / kernel_id)%path in
      b ← is_dir fs bootdir;
      if (b : bool) then mret bootdir else probe_bootdir root kernel_id rest
  end.

Definition init (root : Path) : M t :=
  kernel_id ← read_kernel_id root id_paths;
  bootdir ← probe_bootdir root kernel_id potential_dirs;
  mret {| root := root; bootdir := bootdir |}.

(** The body of the inner loop of [find_kernels], for one name [fn] of
    the boot-entry directory [dir_path]. *)
Definition scan_file (exclusions : list KernelFileType)
    (module_dict : gmap string (list FileRecord))
    (dir_path : Path) (k : Kernel) (fn : string) : M Kernel :=
  if Text.startswith "." fn then mret k else
  let path := (dir_path / fn)%path in
  let ftype := default MISC (name_map !! fn) in
  let fobj := GenericFile path ftype in
  '(k, fobj) ←
    (if decide (ftype = KERNEL) then
       r ← KernelImage_init fs path;
       match r with
       | inl err =>
           logging_debug ("Unrecognized potential kernel image: " +:+ err);;
           mret (k, fobj)
       | inr internal_version =>
           (* associate the module directory *)
           mret (extend k (default [] (module_dict !! internal_version)),
                 KernelImage path internal_version)
       end
     else mret (k, fobj));
  mret (if decide (ftype ∈ exclusions) then k else append k fobj).

(** The body of the outer loop, for one name [ver] of the boot
    directory. *)
Definition scan_entry (exclusions : list KernelFileType)
    (module_dict : gmap string (list FileRecord))
    (bootdir : Path) (kernels : list (string * Kernel)) (ver : string)
  : M (list (string * Kernel)) :=
  if Text.startswith "." ver then mret kernels else
  let dir_path := (bootdir / ver)%path in
  sl ← is_symlink fs dir_path;
  skip ← (if (sl : bool) then mret true
          else d ← is_dir fs dir_path; mret (negb d));
  if (skip : bool) then mret kernels else
  names ← listdir fs dir_path;
  k ← foldM (scan_file exclusions module_dict dir_path) names (Kernel_new ver);
  mret (Dict.set ver (append k (EmptyDirectory dir_path)) kernels).

(** The body of the last loop: merge unassociated modules into kernel
    groups. *)
Definition merge_modules (kernels : list (string * Kernel))
    (item : string * list FileRecord) : list (string * Kernel) :=
  let '(mkv, fobjs) := item in
  if existsb (λ k, bool_decide (Some mkv = real_kv k)) (Dict.values kernels)
  then kernels
  else Dict.update mkv (λ k, extend k fobjs)
         (Dict.setdefault mkv (Kernel_new mkv) kernels).

Definition find_kernels (self : t) (exclusions : list KernelFileType)
  : M (list Kernel) :=
  (* this would wreak havok all around the place *)
  if decide (KERNEL ∈ exclusions) then raise AssertionError else
  (* collect all module directories first *)
  module_dict ← call_get_module_dict fs exclusions (root self / "lib/modules")%path;
  (* collect from /boot *)
  vers ← listdir fs (bootdir self);
  kernels ← foldM (scan_entry exclusions module_dict (bootdir self)) vers [];
  mret (Dict.values (fold_left merge_modules (module_items module_dict) kernels)).

End Methods.

End BlSpecLayout.

(** * Notions of the specification *)

(** ** The contract of the module tree collector *)

(** Modelled from the spec: what [get_module_dict] of
    [ecleankernel/layout/moduledir.py] may put in the mapping.  The records
    of a module tree are generic records of a module type: none is a
    [KernelImage] or an [EmptyDirectory], and none is classified KERNEL. *)
Definition module_record (r : FileRecord) : bool :=
  match r with
  | GenericFile _ t => bool_decide (t ≠ KERNEL)
  | _ => false
  end.

Definition module_dict_ok (module_dict : gmap string (list FileRecord)) : Prop :=
  map_Forall (λ _ fobjs, forallb module_record fobjs = true) module_dict.

(** ** The boot entries *)

Section BootEntries.
Variable fs : FileSystem.
Variable exclusions : list KernelFileType.
Variable module_dict : gmap string (list FileRecord).

(** The boot entries the outer loop does not skip. *)
Definition eligible (bootdir : Path) (ver : string) : bool :=
  negb (Text.startswith "." ver)
  && negb (fs_is_symlink fs (bootdir / ver)%path)
  && fs_is_dir fs (bootdir / ver)%path.

(** The image of a boot entry raises nothing but
    [UnrecognizedKernelError]: the entry has no name [linux], or the
    constructor parses or does not recognize the file. *)
Definition image_readable (dir_path : Path) (names : list string) : bool :=
  negb (bool_decide ("linux" ∈ names))
  || match fs_kernel_image fs (dir_path / "linux")%path with
     | ImageFailure => false
     | _ => true
     end.

(** Every boot entry that is scanned can be listed, and its image can be
    read. *)
Definition scannable (bootdir : Path) (vers : list string) : bool :=
  forallb (λ ver, implb (eligible bootdir ver)
                    match fs_listdir fs (bootdir / ver)%path with
                    | Some names => image_readable (bootdir / ver)%path names
                    | None => false
                    end)
          vers.

(** What one name of a boot entry adds to the file list. *)
Definition file_records (dir_path : Path) (fn : string) : list FileRecord :=
  if Text.startswith "." fn then [] else
  let path := (dir_path / fn)%path in
  let ftype := default MISC (BlSpecLayout.name_map !! fn) in
  let keep (fobj : FileRecord) :=
    if decide (ftype ∈ exclusions) then [] else [fobj] in
  if decide (ftype = KERNEL) then
    match fs_kernel_image fs path with
    | UnrecognizedKernelError _ => keep (GenericFile path ftype)
    | Parsed v => default [] (module_dict !! v) ++ keep (KernelImage path v)
    | ImageFailure => []
    end
  else keep (GenericFile path ftype).

Definition boot_kernel (bootdir : Path) (ver : string) (names : list string)
  : Kernel :=
  {| version := ver;
     all_files := flat_map (file_records (bootdir / ver)%path) names
                  ++ [EmptyDirectory (bootdir / ver)%path] |}.

(** Every name of the boot directory and of its entries is a file name, as
    [os.listdir] gives them. *)
Definition names_ok (bootdir : Path) (vers : list string) : bool :=
  forallb (λ ver,
             PathOps.is_name ver
             && match fs_listdir fs (bootdir / ver)%path with
                | Some names => forallb PathOps.is_name names
                | None => true
                end)
          vers.

End BootEntries.

(** Some kernel of the dictionary reports [mkv] as its real version. *)
Definition matched (kernels : list (string * Kernel)) (mkv : string) : Prop :=
  ∃ k, k ∈ Dict.values kernels ∧ real_kv k = Some mkv.

(** ** The identity token as the specification words it *)

(** The specification's reading of the first loop of [__init__]: the first
    candidate that exists and is not empty once trimmed. *)
Fixpoint first_nonempty_token (fs : FileSystem) (root : Path) (paths : list string)
  : option string :=
  match paths with
  | [] => None
  | path :: rest =>
      match fs_open fs (root / path)%path with
      | Contents text =>
          if decide (Text.strip text = "") then first_nonempty_token fs root rest
          else Some (Text.strip text)
      | _ => first_nonempty_token fs root rest
      end
  end.

(** ** Example trees *)

Module Examples.

(** A machine [abc123] with two boot entries under [/boot/abc123]: [5.10.0],
    whose image reports [5.10.0-int], and [X], whose [linux] file is not a
    kernel image; a hidden entry [.hid]; and the module trees [5.10.0-int],
    [X] and [orph]. *)
Definition boot_abc123 : Path := ["/"; "boot"; "abc123"].

Definition fs_two_entries : FileSystem := {|
  fs_open p :=
    if decide (p = ["/"; "etc"; "machine-id"]) then Contents "abc123 "
    else FileNotFoundError;
  fs_is_dir p :=
    bool_decide (p ∈ [boot_abc123; boot_abc123 ++ ["5.10.0"]; boot_abc123 ++ ["X"]]);
  fs_is_symlink p := false;
  fs_listdir p :=
    if decide (p = boot_abc123) then Some ["5.10.0"; ".hid"; "X"]
    else if decide (p = boot_abc123 ++ ["5.10.0"])
         then Some ["linux"; "initrd"; ".x"; "foo"]
    else if decide (p = boot_abc123 ++ ["X"]) then Some ["linux"]
    else None;
  fs_kernel_image p :=
    if decide (p = boot_abc123 ++ ["5.10.0"; "linux"]) then Parsed "5.10.0-int"
    else UnrecognizedKernelError "bad magic";
|}.

Definition modules_of (mkv : string) : list FileRecord :=
  [GenericFile ["/"; "lib"; "modules"; mkv] MODULES].

Definition module_dict_three : gmap string (list FileRecord) :=
  <["5.10.0-int" := modules_of "5.10.0-int"]>
    (<["X" := modules_of "X"]> (<["orph" := modules_of "orph"]> ∅)).

Definition layout_three : ModuleDirLayout :=
  {| get_module_dict _ _ _ := Some module_dict_three;
     module_items := map_to_list;
     module_items_perm module_dict := Permutation_refl _ |}.

Definition self_abc123 : BlSpecLayout.t :=
  {| BlSpecLayout.root := ["/"]; BlSpecLayout.bootdir := boot_abc123 |}.

(** The dictionary of the boot-entry scan of this tree. *)
Definition kernels_two_entries : list (string * Kernel) :=
  [ ("5.10.0",
     {| version := "5.10.0";
        all_files :=
          [ GenericFile ["/"; "lib"; "modules"; "5.10.0-int"] MODULES;
            KernelImage (boot_abc123 ++ ["5.10.0"; "linux"]) "5.10.0-int";
            GenericFile (boot_abc123 ++ ["5.10.0"; "initrd"]) INITRAMFS;
            GenericFile (boot_abc123 ++ ["5.10.0"; "foo"]) MISC;
            EmptyDirectory (boot_abc123 ++ ["5.10.0"]) ] |});
    ("X",
     {| version := "X";
        all_files :=
          [ GenericFile (boot_abc123 ++ ["X"; "linux"]) KERNEL;
            EmptyDirectory (boot_abc123 ++ ["X"]) ] |}) ].

(** Two boot entries [A] and [B] whose images both report the version [v],
    and the module tree [v]. *)
Definition fs_same_version : FileSystem := {|
  fs_open p := FileNotFoundError;
  fs_is_dir p := bool_decide (p ∈ [boot_abc123; boot_abc123 ++ ["A"]; boot_abc123 ++ ["B"]]);
  fs_is_symlink p := false;
  fs_listdir p :=
    if decide (p = boot_abc123) then Some ["A"; "B"]
    else if decide (p = boot_abc123 ++ ["A"]) then Some ["linux"]
    else if decide (p = boot_abc123 ++ ["B"]) then Some ["linux"]
    else None;
  fs_kernel_image p := Parsed "v";
|}.

Definition layout_v : ModuleDirLayout :=
  {| get_module_dict _ _ _ := Some (<["v" := modules_of "v"]> ∅);
     module_items := map_to_list;
     module_items_perm module_dict := Permutation_refl _ |}.

(** An entry-token file that holds only blanks, beside a machine-id file
    that holds [abc123], with the boot entries under [/boot/abc123]. *)
Definition fs_blank_token : FileSystem := {|
  fs_open p :=
    if decide (p = ["/"; "etc"; "kernel"; "entry-token"]) then Contents "  "
    else if decide (p = ["/"; "etc"; "machine-id"]) then Contents "abc123"
    else FileNotFoundError;
  fs_is_dir p := bool_decide (p ∈ [["/"; "boot"]; boot_abc123]);
  fs_is_symlink p := false;
  fs_listdir p := None;
  fs_kernel_image p := UnrecognizedKernelError "bad magic";
|}.

(** An entry-token file that exists and cannot be read, beside a readable
    machine-id file. *)
Definition fs_unreadable_token : FileSystem := {|
  fs_open p :=
    if decide (p = ["/"; "etc"; "kernel"; "entry-token"]) then OpenError
    else if decide (p = ["/"; "etc"; "machine-id"]) then Contents "abc123"
    else FileNotFoundError;
  fs_is_dir p := bool_decide (p ∈ [["/"; "boot"]; boot_abc123]);
  fs_is_symlink p := false;
  fs_listdir p := None;
  fs_kernel_image p := UnrecognizedKernelError "bad magic";
|}.

(** The boot entries [5.10.0] and [broken] under [/boot/abc123]; the second is
    a directory that cannot be listed. *)
Definition fs_unlistable_entry : FileSystem := {|
  fs_open p := FileNotFoundError;
  fs_is_dir p :=
    bool_decide (p ∈ [boot_abc123; boot_abc123 ++ ["5.10.0"];
                      boot_abc123 ++ ["broken"]]);
  fs_is_symlink p := false;
  fs_listdir p :=
    if decide (p = boot_abc123) then Some ["5.10.0"; "broken"]
    else if decide (p = boot_abc123 ++ ["5.10.0"]) then Some ["linux"]
    else None;
  fs_kernel_image p := Parsed "5.10.0-int";
|}.

(** The boot entries [5.10.0] and [bad] under [/boot/abc123]; reading the
    image of the second fails with an error other than
    [UnrecognizedKernelError]. *)
Definition fs_broken_image : FileSystem := {|
  fs_open p := FileNotFoundError;
  fs_is_dir p :=
    bool_decide (p ∈ [boot_abc123; boot_abc123 ++ ["5.10.0"];
                      boot_abc123 ++ ["bad"]]);
  fs_is_symlink p := false;
  fs_listdir p :=
    if decide (p = boot_abc123) then Some ["5.10.0"; "bad"]
    else if decide (p = boot_abc123 ++ ["5.10.0"]) then Some ["linux"]
    else if decide (p = boot_abc123 ++ ["bad"]) then Some ["initrd"; "linux"]
    else None;
  fs_kernel_image p :=
    if decide (p = boot_abc123 ++ ["5.10.0"; "linux"]) then Parsed "5.10.0-int"
    else ImageFailure;
|}.

(** A collector that fails. *)
Definition layout_failing : ModuleDirLayout :=
  {| get_module_dict _ _ _ := None;
     module_items := map_to_list;
     module_items_perm module_dict := Permutation_refl _ |}.

End Examples.

(** * Properties *)

(** ** The monad *)

Lemma outcome_ret {A} (a : A) : outcome (mret a : M A) = inr a.
Proof. reflexivity. Qed.

Lemma outcome_bind {A B} (m : M A) (f : A -> M B) :
  outcome (m ≫= f) =
  match outcome m with inl e => inl e | inr a => outcome (f a) end.
Proof. destruct m as [t [e|a]]; reflexivity. Qed.

Lemma trace_bind {A B} (m : M A) (f : A -> M B) :
  trace (m ≫= f) =
  match outcome m with inl _ => trace m | inr a => trace m ++ trace (f a) end.
Proof. destruct m as [t [e|a]]; reflexivity. Qed.

Lemma M_eta {A} (m : M A) : m = (trace m, outcome m).
Proof. by destruct m. Qed.

Lemma outcome_foldM_app {A B} (f : A -> B -> M A) l1 l2 a :
  outcome (foldM f (l1 ++ l2) a) =
  match outcome (foldM f l1 a) with
  | inl e => inl e
  | inr a' => outcome (foldM f l2 a')
  end.
Proof.
  revert a. induction l1 as [|b l1 IH]; intros a; simpl; [done|].
  rewrite !outcome_bind. destruct (outcome (f a b)); [done|]. apply IH.
Qed.

(** A loop whose body cannot fail is a fold. *)
Lemma outcome_foldM_pure {A B} (f : A -> B -> M A) (g : A -> B -> A) l a :
  (∀ a b, outcome (f a b) = inr (g a b)) →
  outcome (foldM f l a) = inr (fold_left g l a).
Proof.
  intros Hf. revert a. induction l as [|b l IH]; intros a; simpl; [done|].
  by rewrite outcome_bind, Hf, IH.
Qed.

(** An event of the body at [b] is in the trace of a loop that completes. *)
Lemma trace_foldM_elem {A B} (f : A -> B -> M A) l a a' ev b :
  outcome (foldM f l a) = inr a' →
  b ∈ l →
  (∀ a0, ev ∈ trace (f a0 b)) →
  ev ∈ trace (foldM f l a).
Proof.
  intros Hok Hb Hev. revert a Hok.
  induction l as [|b0 l IH]; intros a Hok; [by apply elem_of_nil in Hb|].
  simpl in *. rewrite outcome_bind in Hok. rewrite trace_bind.
  destruct (outcome (f a b0)) as [e|a1] eqn:Hstep; [done|].
  apply elem_of_app. apply elem_of_cons in Hb as [->|Hb].
  - left. apply Hev.
  - right. by apply IH.
Qed.

#[global] Arguments M_bind : simpl never.
#[global] Arguments open_read : simpl never.
#[global] Arguments is_dir : simpl never.
#[global] Arguments is_symlink : simpl never.
#[global] Arguments listdir : simpl never.
#[global] Arguments KernelImage_init : simpl never.
#[global] Arguments logging_debug : simpl never.
#[global] Arguments call_get_module_dict : simpl never.
#[global] Arguments BlSpecLayout.merge_modules : simpl never.

(** The outcomes of the calls. *)
Section CallFacts.
Variable fs : FileSystem.

Lemma outcome_is_dir p : outcome (is_dir fs p) = inr (fs_is_dir fs p).
Proof. reflexivity. Qed.

Lemma outcome_is_symlink p : outcome (is_symlink fs p) = inr (fs_is_symlink fs p).
Proof. reflexivity. Qed.

Lemma outcome_listdir p :
  outcome (listdir fs p) =
  match fs_listdir fs p with Some names => inr names | None => inl (OSError p) end.
Proof. unfold listdir. rewrite outcome_bind. simpl. by destruct (fs_listdir fs p). Qed.

Lemma outcome_open_read p :
  outcome (open_read fs p) =
  match fs_open fs p with
  | Contents text => inr (Some text)
  | FileNotFoundError => inr None
  | OpenError => inl (OSError p)
  end.
Proof. unfold open_read. rewrite outcome_bind. simpl. by destruct (fs_open fs p). Qed.

Lemma outcome_KernelImage_init p :
  outcome (KernelImage_init fs p) =
  match fs_kernel_image fs p with
  | Parsed internal_version => inr (inr internal_version)
  | UnrecognizedKernelError err => inr (inl err)
  | ImageFailure => inl (KernelImageFailure p)
  end.
Proof.
  unfold KernelImage_init. rewrite outcome_bind. simpl.
  by destruct (fs_kernel_image fs p).
Qed.

Lemma outcome_logging_debug msg : outcome (logging_debug msg) = inr tt.
Proof. reflexivity. Qed.

End CallFacts.

(** ** Dictionaries *)

Module DictFacts.
Section DictFacts.
Context {V : Type}.
Implicit Types (d : list (string * V)) (key : string) (v : V).

Lemma get_set key key' v d :
  Dict.get key' (Dict.set key v d) =
  if decide (key = key') then Some v else Dict.get key' d.
Proof.
  induction d as [|[k w] d IH]; simpl.
  - repeat case_decide; congruence.
  - repeat (case_decide; simplify_eq/=); rewrite ?IH;
      repeat (case_decide; simplify_eq/=); done.
Qed.

Lemma get_update key key' (f : V -> V) d :
  Dict.get key' (Dict.update key f d) =
  if decide (key = key') then f <$> Dict.get key d else Dict.get key' d.
Proof.
  induction d as [|[k w] d IH]; simpl.
  - by case_decide.
  - repeat (case_decide; simplify_eq/=); rewrite ?IH;
      repeat (case_decide; simplify_eq/=); done.
Qed.

Lemma get_setdefault key key' v d :
  Dict.get key' (Dict.setdefault key v d) =
  if decide (key = key') then Some (default v (Dict.get key d))
  else Dict.get key' d.
Proof.
  unfold Dict.setdefault. destruct (Dict.get key d) as [w|] eqn:Hg.
  - case_decide; [by subst|done].
  - by rewrite get_set.
Qed.

Lemma get_None key d : Dict.get key d = None ↔ key ∉ Dict.keys d.
Proof.
  unfold Dict.keys. induction d as [|[k w] d IH].
  - split; [intros _; apply not_elem_of_nil|done].
  - cbn [Dict.get fmap list_fmap fst]. rewrite not_elem_of_cons.
    destruct (decide (k = key)); [|rewrite IH]; naive_solver.
Qed.

Lemma keys_set key v d :
  Dict.keys (Dict.set key v d) =
  if decide (key ∈ Dict.keys d) then Dict.keys d else Dict.keys d ++ [key].
Proof.
  unfold Dict.keys. induction d as [|[k w] d IH].
  - rewrite decide_False; [done|apply not_elem_of_nil].
  - cbn [Dict.set]. destruct (decide (k = key)) as [->|Hk].
    + rewrite decide_True; [done|left].
    + cbn [fmap list_fmap fst] in *. rewrite IH.
      destruct (decide (key ∈ d.*1)) as [Hin|Hin].
      * rewrite decide_True; [done|by right].
      * rewrite decide_False; [done|].
        rewrite elem_of_cons. naive_solver.
Qed.

Lemma keys_update key (f : V -> V) d :
  Dict.keys (Dict.update key f d) = Dict.keys d.
Proof.
  unfold Dict.keys. induction d as [|[k w] d IH]; [done|].
  cbn [Dict.update]. destruct (decide (k = key));
    cbn [fmap list_fmap fst] in *; [done|by rewrite IH].
Qed.

Lemma NoDup_keys_set key v d :
  NoDup (Dict.keys d) → NoDup (Dict.keys (Dict.set key v d)).
Proof.
  intros Hnd. rewrite keys_set. case_decide as Hin; [done|].
  apply NoDup_app. split_and!; [done| |apply NoDup_singleton].
  intros x Hx Hx'. apply list_elem_of_singleton in Hx'. by subst.
Qed.

Lemma NoDup_keys_setdefault key v d :
  NoDup (Dict.keys d) → NoDup (Dict.keys (Dict.setdefault key v d)).
Proof.
  unfold Dict.setdefault. destruct (Dict.get key d); [done|].
  apply NoDup_keys_set.
Qed.

(** With unique keys, the values are what [get] finds. *)
Lemma elem_of_values v d :
  NoDup (Dict.keys d) →
  v ∈ Dict.values d ↔ ∃ key, Dict.get key d = Some v.
Proof.
  unfold Dict.values. induction d as [|[k w] d IH]; intros Hnd.
  - split; [by intros ?%elem_of_nil|by intros [? ?]].
  - unfold Dict.keys in Hnd. cbn [fmap list_fmap fst snd] in *.
    apply NoDup_cons in Hnd as [Hk Hnd]. rewrite elem_of_cons, (IH Hnd).
    split.
    + intros [->|[key Hg]].
      * exists k. cbn. by rewrite decide_True.
      * exists key. cbn. rewrite decide_False; [done|].
        intros ->. apply Hk. apply dec_stable. intros Hn.
        apply get_None in Hn. congruence.
    + intros [key Hg]. cbn in Hg.
      destruct (decide (k = key)); [left; congruence|right; eauto].
Qed.

End DictFacts.
End DictFacts.

(** ** Kernels and records *)

Lemma extend_nil k : extend k [] = k.
Proof. destruct k as [v fs]. unfold extend; simpl. by rewrite app_nil_r. Qed.

Lemma extend_extend k l1 l2 : extend (extend k l1) l2 = extend k (l1 ++ l2).
Proof. unfold extend; simpl. by rewrite app_assoc. Qed.

Lemma first_internal_version_app l1 l2 :
  first_internal_version (l1 ++ l2) =
  match first_internal_version l1 with
  | Some v => Some v
  | None => first_internal_version l2
  end.
Proof. induction l1 as [|[]]; simpl; done. Qed.

Lemma first_internal_version_None l :
  Forall (λ r, is_kernel_image r = false) l → first_internal_version l = None.
Proof. induction 1 as [|[] ? Hr]; simpl in *; done. Qed.

Lemma module_dict_ok_lookup md mkv fobjs :
  module_dict_ok md → md !! mkv = Some fobjs → Forall (λ r, module_record r = true) fobjs.
Proof.
  intros Hok Hl. specialize (Hok _ _ Hl). simpl in Hok.
  apply Forall_forall. intros r Hr. rewrite forallb_forall in Hok.
  apply Hok. by apply list_elem_of_In.
Qed.

Lemma module_record_not_image l :
  Forall (λ r, module_record r = true) l →
  Forall (λ r, is_kernel_image r = false) l.
Proof. intros Hl. eapply Forall_impl; [exact Hl|]. by intros []. Qed.

Lemma real_kv_extend_modules k fobjs :
  Forall (λ r, module_record r = true) fobjs →
  real_kv (extend k fobjs) = real_kv k.
Proof.
  intros Hm. unfold real_kv, extend; simpl.
  rewrite first_internal_version_app.
  rewrite (first_internal_version_None fobjs) by by apply module_record_not_image.
  by destruct (first_internal_version _).
Qed.

(** ** The boot-entry scan *)

Lemma name_map_lookup fn :
  BlSpecLayout.name_map !! fn =
  if decide (fn = "initrd") then Some INITRAMFS
  else if decide (fn = "linux") then Some KERNEL
  else None.
Proof.
  unfold BlSpecLayout.name_map. rewrite !lookup_insert, lookup_empty.
  repeat case_decide; congruence.
Qed.

Lemma name_map_kernel fn :
  default MISC (BlSpecLayout.name_map !! fn) = KERNEL ↔ fn = "linux".
Proof.
  rewrite name_map_lookup. repeat case_decide; simpl; split; congruence.
Qed.

Section BootScan.
Variable fs : FileSystem.
Variable exclusions : list KernelFileType.
Variable module_dict : gmap string (list FileRecord).

Lemma scan_file_outcome dir_path k fn :
  outcome (BlSpecLayout.scan_file fs exclusions module_dict dir_path k fn)
  = if image_readable fs dir_path [fn]
    then inr (extend k (file_records fs exclusions module_dict dir_path fn))
    else inl (KernelImageFailure (dir_path / "linux")%path).
Proof.
  unfold BlSpecLayout.scan_file, file_records, image_readable.
  destruct (decide (fn = "linux")) as [->|Hfn].
  - rewrite bool_decide_true by left. cbn [negb orb].
    cbn [Text.startswith Ascii.eqb Bool.eqb].
    assert (default MISC (BlSpecLayout.name_map !! "linux") = KERNEL) as ->
      by by apply name_map_kernel.
    rewrite !decide_True by done.
    rewrite !outcome_bind, outcome_KernelImage_init.
    destruct (fs_kernel_image fs _) as [v|err|]; [| |done].
    + simpl. destruct (decide (_ ∈ exclusions)); unfold append;
        by rewrite ?extend_extend, ?app_nil_r.
    + rewrite outcome_bind, outcome_logging_debug. simpl.
      destruct (decide (_ ∈ exclusions)); by rewrite ?extend_nil.
  - rewrite bool_decide_false
      by (rewrite list_elem_of_singleton; congruence).
    cbn [negb orb].
    destruct (Text.startswith "." fn); [by rewrite extend_nil|].
    rewrite outcome_bind.
    rewrite !decide_False by by rewrite name_map_kernel.
    simpl. destruct (decide (_ ∈ exclusions)); by rewrite ?extend_nil.
Qed.

Lemma image_readable_cons dir_path fn names :
  image_readable fs dir_path (fn :: names)
  = image_readable fs dir_path [fn] && image_readable fs dir_path names.
Proof.
  unfold image_readable.
  destruct (fs_kernel_image fs _); rewrite ?orb_true_r, ?orb_false_r; [done..|].
  destruct (decide (fn = "linux")) as [->|Hfn].
  - rewrite !(bool_decide_true ("linux" ∈ "linux" :: _)) by left. done.
  - rewrite (bool_decide_false ("linux" ∈ [fn]))
      by (rewrite list_elem_of_singleton; congruence).
    cbn [negb andb]. f_equal. apply bool_decide_ext.
    rewrite elem_of_cons. naive_solver.
Qed.

Lemma scan_files_outcome dir_path names k :
  outcome (foldM (BlSpecLayout.scan_file fs exclusions module_dict dir_path) names k)
  = if image_readable fs dir_path names
    then inr (extend k (flat_map (file_records fs exclusions module_dict dir_path) names))
    else inl (KernelImageFailure (dir_path / "linux")%path).
Proof.
  revert k. induction names as [|fn names IH]; intros k.
  - cbn. by rewrite extend_nil.
  - cbn [foldM flat_map]. rewrite image_readable_cons.
    rewrite outcome_bind, scan_file_outcome.
    destruct (image_readable fs dir_path [fn]); [|done]. cbn [andb].
    rewrite IH. destruct (image_readable fs dir_path names); [|done].
    by rewrite extend_extend.
Qed.

Lemma scan_entry_outcome bootdir kernels ver :
  outcome (BlSpecLayout.scan_entry fs exclusions module_dict bootdir kernels ver)
  = if eligible fs bootdir ver then
      match fs_listdir fs (bootdir / ver)%path with
      | Some names =>
          if image_readable fs (bootdir / ver)%path names
          then inr (Dict.set ver (boot_kernel fs exclusions module_dict bootdir ver names)
                      kernels)
          else inl (KernelImageFailure (bootdir / ver / "linux")%path)
      | None => inl (OSError (bootdir / ver)%path)
      end
    else inr kernels.
Proof.
  unfold BlSpecLayout.scan_entry, eligible.
  destruct (Text.startswith "." ver); [done|].
  rewrite outcome_bind, outcome_is_symlink. cbv beta iota.
  destruct (fs_is_symlink fs _).
  { by rewrite outcome_bind, outcome_ret. }
  rewrite !outcome_bind, outcome_is_dir. cbv beta iota.
  rewrite outcome_ret.
  destruct (fs_is_dir fs _); [|done]. cbn [negb andb].
  rewrite outcome_bind, outcome_listdir.
  destruct (fs_listdir fs _) as [names|]; [|done].
  rewrite outcome_bind, scan_files_outcome.
  by destruct (image_readable fs _ names).
Qed.

(** The dictionary after the outer loop. *)
Lemma boot_scan_get bootdir vers kernels0 kernels key :
  outcome (foldM (BlSpecLayout.scan_entry fs exclusions module_dict bootdir)
             vers kernels0) = inr kernels →
  Dict.get key kernels =
  if bool_decide (key ∈ vers) && eligible fs bootdir key
  then boot_kernel fs exclusions module_dict bootdir key <$> fs_listdir fs (bootdir / key)%path
  else Dict.get key kernels0.
Proof.
  revert kernels0. induction vers as [|ver vers IH]; intros kernels0; simpl.
  - by intros [= ->].
  - rewrite outcome_bind, scan_entry_outcome.
    assert (key ≠ ver → bool_decide (key ∈ ver :: vers) = bool_decide (key ∈ vers))
      as Hother.
    { intros Hne. apply bool_decide_ext. rewrite elem_of_cons. naive_solver. }
    destruct (eligible fs bootdir ver) eqn:Hel.
    + destruct (fs_listdir fs (bootdir / ver)%path) as [names|] eqn:Hls; [|done].
      destruct (image_readable fs _ names); [|done].
      intros Hrest. rewrite (IH _ Hrest), DictFacts.get_set.
      destruct (decide (key = ver)) as [->|Hne].
      * rewrite (bool_decide_true (ver ∈ ver :: vers)) by left.
        rewrite Hel, Hls, decide_True by done. by destruct (bool_decide _).
      * by rewrite decide_False, Hother by done.
    + intros Hrest. rewrite (IH _ Hrest).
      destruct (decide (key = ver)) as [->|Hne].
      * by rewrite Hel, !andb_false_r.
      * by rewrite Hother.
Qed.

Lemma boot_scan_NoDup bootdir vers kernels0 kernels :
  NoDup (Dict.keys kernels0) →
  outcome (foldM (BlSpecLayout.scan_entry fs exclusions module_dict bootdir)
             vers kernels0) = inr kernels →
  NoDup (Dict.keys kernels).
Proof.
  revert kernels0. induction vers as [|ver vers IH]; intros kernels0 Hnd; simpl.
  - by intros [= <-].
  - rewrite outcome_bind, scan_entry_outcome.
    destruct (eligible fs bootdir ver); [|by apply IH].
    destruct (fs_listdir fs _) as [names|]; [|done].
    destruct (image_readable fs _ names); [|done].
    apply IH. by apply DictFacts.NoDup_keys_set.
Qed.

Lemma boot_scan_total bootdir vers kernels0 :
  scannable fs bootdir vers = true →
  ∃ kernels,
    outcome (foldM (BlSpecLayout.scan_entry fs exclusions module_dict bootdir)
               vers kernels0) = inr kernels.
Proof.
  revert kernels0. induction vers as [|ver vers IH]; intros kernels0; simpl.
  - by eexists.
  - intros [Hv Hrest]%andb_true_iff.
    rewrite outcome_bind, scan_entry_outcome.
    destruct (eligible fs bootdir ver); [|by apply IH].
    simpl in Hv. destruct (fs_listdir fs _) as [names|]; [|done].
    rewrite Hv. by apply IH.
Qed.

End BootScan.

(** ** Merging the unassociated module trees *)

Section Merge.
Implicit Types (kernels : list (string * Kernel)) (mkv key : string).
Implicit Types (fobjs : list FileRecord).

Lemma existsb_matched kernels mkv :
  existsb (λ k, bool_decide (Some mkv = real_kv k)) (Dict.values kernels) = true
  ↔ matched kernels mkv.
Proof.
  rewrite existsb_exists. unfold matched. split.
  - intros (k & Hin & Hk). exists k. apply list_elem_of_In in Hin.
    by apply bool_decide_eq_true in Hk.
  - intros (k & Hin & Hk). exists k. split; [by apply list_elem_of_In|].
    by apply bool_decide_eq_true.
Qed.

Lemma merge_modules_get kernels mkv fobjs key :
  Dict.get key (BlSpecLayout.merge_modules kernels (mkv, fobjs)) =
  if existsb (λ k, bool_decide (Some mkv = real_kv k)) (Dict.values kernels)
  then Dict.get key kernels
  else if decide (mkv = key)
       then Some (extend (default (Kernel_new mkv) (Dict.get mkv kernels)) fobjs)
       else Dict.get key kernels.
Proof.
  unfold BlSpecLayout.merge_modules. destruct (existsb _ _); [done|].
  rewrite DictFacts.get_update, !DictFacts.get_setdefault.
  destruct (decide (mkv = key)) as [->|]; [|done].
  by rewrite decide_True.
Qed.

Lemma merge_modules_NoDup kernels item :
  NoDup (Dict.keys kernels) →
  NoDup (Dict.keys (BlSpecLayout.merge_modules kernels item)).
Proof.
  intros Hnd. destruct item as [mkv fobjs]. unfold BlSpecLayout.merge_modules.
  destruct (existsb _ _); [done|].
  rewrite DictFacts.keys_update. by apply DictFacts.NoDup_keys_setdefault.
Qed.

(** Module records never change which versions are matched. *)
Lemma merge_modules_matched kernels mkv fobjs v :
  NoDup (Dict.keys kernels) →
  Forall (λ r, module_record r = true) fobjs →
  matched (BlSpecLayout.merge_modules kernels (mkv, fobjs)) v ↔ matched kernels v.
Proof.
  intros Hnd Hmod. unfold matched.
  pose proof (merge_modules_NoDup kernels (mkv, fobjs) Hnd) as Hnd'.
  setoid_rewrite (DictFacts.elem_of_values _ _ Hnd).
  setoid_rewrite (DictFacts.elem_of_values _ _ Hnd').
  setoid_rewrite merge_modules_get.
  destruct (existsb _ _); [done|]. split.
  - intros (k & [key Hg] & Hv). destruct (decide (mkv = key)) as [->|Hne].
    + injection Hg as <-. rewrite real_kv_extend_modules in Hv by done.
      destruct (Dict.get key kernels) as [k0|] eqn:Hk0; [|done].
      exists k0. eauto.
    + exists k. eauto.
  - intros (k & [key Hg] & Hv). destruct (decide (mkv = key)) as [->|Hne].
    + exists (extend k fobjs). split.
      * exists key. by rewrite decide_True, Hg.
      * by rewrite real_kv_extend_modules.
    + exists k. split; [|done]. exists key. by rewrite decide_False.
Qed.

Lemma merge_fold_NoDup items kernels :
  NoDup (Dict.keys kernels) →
  NoDup (Dict.keys (fold_left BlSpecLayout.merge_modules items kernels)).
Proof.
  revert kernels. induction items as [|item items IH]; intros kernels Hnd; [done|].
  simpl. apply IH. by apply merge_modules_NoDup.
Qed.

Lemma merge_fold_matched items kernels v :
  NoDup (Dict.keys kernels) →
  Forall (λ item, Forall (λ r, module_record r = true) item.2) items →
  matched (fold_left BlSpecLayout.merge_modules items kernels) v ↔ matched kernels v.
Proof.
  revert kernels. induction items as [|[mkv fobjs] items IH];
    intros kernels Hnd Hmod; [done|].
  apply Forall_cons in Hmod as [Hf Hmod]. simpl.
  etrans; [apply IH; [by apply merge_modules_NoDup|done]|].
  by apply merge_modules_matched.
Qed.

(** A key that is not an unmatched module tree keeps its kernel. *)
Lemma merge_fold_get_other items kernels key :
  NoDup (Dict.keys kernels) →
  Forall (λ item, Forall (λ r, module_record r = true) item.2) items →
  key ∉ items.*1 ∨ matched kernels key →
  Dict.get key (fold_left BlSpecLayout.merge_modules items kernels)
  = Dict.get key kernels.
Proof.
  revert kernels. induction items as [|[mkv fobjs] items IH];
    intros kernels Hnd Hmod Hkey; [done|].
  apply Forall_cons in Hmod as [Hf Hmod]. simpl in *.
  rewrite IH; [|by apply merge_modules_NoDup|done|].
  - rewrite merge_modules_get.
    destruct (existsb _ _) eqn:Hex; [done|].
    destruct (decide (mkv = key)) as [->|Hne]; [|done].
    destruct Hkey as [Hkey|Hkey].
    + exfalso. apply Hkey. left.
    + apply existsb_matched in Hkey. congruence.
  - destruct Hkey as [Hkey|Hkey].
    + left. intros Hin. apply Hkey. by right.
    + right. by apply merge_modules_matched.
Qed.

(** An unmatched module tree is appended to the kernel of its key, which
    is created when there is none. *)
Lemma merge_fold_get_unmatched items kernels key fobjs :
  NoDup items.*1 →
  NoDup (Dict.keys kernels) →
  Forall (λ item, Forall (λ r, module_record r = true) item.2) items →
  (key, fobjs) ∈ items →
  ¬ matched kernels key →
  Dict.get key (fold_left BlSpecLayout.merge_modules items kernels)
  = Some (extend (default (Kernel_new key) (Dict.get key kernels)) fobjs).
Proof.
  revert kernels. induction items as [|[mkv f0] items IH];
    intros kernels Hitems Hnd Hmod Hin Hun; [by apply elem_of_nil in Hin|].
  apply Forall_cons in Hmod as [Hf Hmod]. simpl in *.
  apply NoDup_cons in Hitems as [Hfresh Hitems].
  apply elem_of_cons in Hin as [[= <- <-]|Hin].
  - rewrite merge_fold_get_other; [|by apply merge_modules_NoDup|done|by left].
    rewrite merge_modules_get.
    destruct (existsb _ _) eqn:Hex.
    + exfalso. apply Hun. by apply existsb_matched.
    + by rewrite decide_True.
  - assert (mkv ≠ key) as Hne.
    { intros ->. apply Hfresh. apply list_elem_of_fmap. by exists (key, fobjs). }
    rewrite IH; [|done|by apply merge_modules_NoDup|done|done|].
    + rewrite merge_modules_get. destruct (existsb _ _); [done|].
      by rewrite decide_False.
    + by rewrite merge_modules_matched.
Qed.

End Merge.

(** ** The result of [find_kernels] *)

Section FindKernels.
Context (fs : FileSystem) `{ModuleDirLayout}.
Implicit Types (self : BlSpecLayout.t) (exclusions : list KernelFileType).
Implicit Types (module_dict : gmap string (list FileRecord)).
Implicit Types (kernels : list (string * Kernel)) (mkv key ver : string).

(** The items of the module dictionary, in the order the dictionary yields
    them: each key once, with the file list stored under it. *)
Lemma elem_of_module_items module_dict mkv fobjs :
  (mkv, fobjs) ∈ module_items module_dict ↔ module_dict !! mkv = Some fobjs.
Proof.
  rewrite (module_items_perm module_dict). apply elem_of_map_to_list.
Qed.

Lemma NoDup_fst_module_items module_dict :
  NoDup (module_items module_dict).*1.
Proof.
  rewrite (module_items_perm module_dict). apply NoDup_fst_map_to_list.
Qed.

Lemma length_module_items module_dict :
  length (module_items module_dict) = size module_dict.
Proof.
  rewrite (module_items_perm module_dict). apply length_map_to_list.
Qed.

Lemma find_kernels_outcome self exclusions module_dict vers kernels :
  KERNEL ∉ exclusions →
  get_module_dict fs exclusions (BlSpecLayout.root self / "lib/modules")%path
    = Some module_dict →
  fs_listdir fs (BlSpecLayout.bootdir self) = Some vers →
  outcome (foldM (BlSpecLayout.scan_entry fs exclusions module_dict
                    (BlSpecLayout.bootdir self)) vers []) = inr kernels →
  outcome (BlSpecLayout.find_kernels fs self exclusions)
  = inr (Dict.values
           (fold_left BlSpecLayout.merge_modules (module_items module_dict) kernels)).
Proof.
  intros Hex Hmd Hls Hscan. unfold BlSpecLayout.find_kernels.
  rewrite decide_False by done.
  rewrite outcome_bind. unfold call_get_module_dict at 1.
  rewrite outcome_bind. cbn [outcome emit snd]. rewrite Hmd, outcome_ret.
  rewrite outcome_bind, outcome_listdir, Hls.
  by rewrite outcome_bind, Hscan.
Qed.

Lemma module_items_ok module_dict :
  module_dict_ok module_dict →
  Forall (λ item, Forall (λ r, module_record r = true) item.2)
         (module_items module_dict).
Proof.
  intros Hok. apply Forall_forall. intros [mkv fobjs] Hin.
  apply elem_of_module_items in Hin. by eapply module_dict_ok_lookup.
Qed.

Lemma merged_get_other module_dict kernels key :
  NoDup (Dict.keys kernels) →
  module_dict_ok module_dict →
  module_dict !! key = None ∨ matched kernels key →
  Dict.get key
    (fold_left BlSpecLayout.merge_modules (module_items module_dict) kernels)
  = Dict.get key kernels.
Proof.
  intros Hnd Hok Hkey. apply merge_fold_get_other; [done|by apply module_items_ok|].
  destruct Hkey as [Hkey|Hkey]; [left|by right].
  intros ([k fobjs] & -> & Hin)%list_elem_of_fmap.
  apply elem_of_module_items in Hin. simpl in *. congruence.
Qed.

Lemma merged_get_unmatched module_dict kernels key fobjs :
  NoDup (Dict.keys kernels) →
  module_dict_ok module_dict →
  module_dict !! key = Some fobjs →
  ¬ matched kernels key →
  Dict.get key
    (fold_left BlSpecLayout.merge_modules (module_items module_dict) kernels)
  = Some (extend (default (Kernel_new key) (Dict.get key kernels)) fobjs).
Proof.
  intros Hnd Hok Hkey Hun. apply merge_fold_get_unmatched; try done.
  - apply NoDup_fst_module_items.
  - by apply module_items_ok.
  - by apply elem_of_module_items.
Qed.

(** Every kernel of the result is stored under its own version. *)
Lemma merged_keyed module_dict kernels key k :
  NoDup (Dict.keys kernels) →
  module_dict_ok module_dict →
  (∀ key0 k0, Dict.get key0 kernels = Some k0 → version k0 = key0) →
  Dict.get key
    (fold_left BlSpecLayout.merge_modules (module_items module_dict) kernels)
  = Some k →
  version k = key.
Proof.
  intros Hnd Hok Hkeyed.
  destruct (module_dict !! key) as [fobjs|] eqn:Hmd;
    [destruct (existsb (λ k, bool_decide (Some key = real_kv k))
                 (Dict.values kernels)) eqn:Hex|].
  - apply existsb_matched in Hex.
    rewrite merged_get_other by auto. apply Hkeyed.
  - rewrite (merged_get_unmatched _ _ _ fobjs); [|done..|].
    + intros [= <-]. simpl. destruct (Dict.get key kernels) eqn:Hg; simpl; [|done].
      by apply Hkeyed.
    + intros Hm%existsb_matched. congruence.
  - rewrite merged_get_other by auto. apply Hkeyed.
Qed.

Lemma boot_scan_keyed exclusions module_dict bootdir vers kernels key k :
  outcome (foldM (BlSpecLayout.scan_entry fs exclusions module_dict bootdir)
             vers []) = inr kernels →
  Dict.get key kernels = Some k →
  version k = key.
Proof.
  intros Hscan. rewrite (boot_scan_get _ _ _ _ _ _ _ _ Hscan).
  destruct (_ && _); [|done].
  destruct (fs_listdir fs _); [|done]. by intros [= <-].
Qed.

End FindKernels.

(** ** The precondition of [find_kernels] *)

Lemma boot_scan_no_assertion fs exclusions module_dict bootdir vers kernels0 :
  outcome (foldM (BlSpecLayout.scan_entry fs exclusions module_dict bootdir)
             vers kernels0) ≠ inl AssertionError.
Proof.
  revert kernels0. induction vers as [|ver vers IH]; intros kernels0; simpl; [done|].
  rewrite outcome_bind, scan_entry_outcome.
  destruct (eligible fs bootdir ver); [|apply IH].
  destruct (fs_listdir fs _) as [names|]; [|done].
  destruct (image_readable fs _ names); [apply IH|done].
Qed.

(** C3. When KERNEL is in the exclusion set, [find_kernels] raises the
    assertion with an empty trace: no module directory has been collected
    and no directory listed.  When KERNEL is not in the exclusion set, the
    outcome is never the assertion. *)
Theorem kernel_exclusion_asserted_first
    (fs : FileSystem) `{ModuleDirLayout} (self : BlSpecLayout.t)
    (exclusions : list KernelFileType) :
  (KERNEL ∈ exclusions →
     BlSpecLayout.find_kernels fs self exclusions = ([], inl AssertionError))
  ∧ (KERNEL ∉ exclusions →
     outcome (BlSpecLayout.find_kernels fs self exclusions) ≠ inl AssertionError).
Proof.
  unfold BlSpecLayout.find_kernels. split; intros Hex.
  - by rewrite decide_True.
  - rewrite decide_False by done.
    rewrite outcome_bind. unfold call_get_module_dict at 1.
    rewrite outcome_bind. cbn [outcome emit snd].
    destruct (get_module_dict fs exclusions _) as [module_dict|]; [|done].
    rewrite outcome_ret, outcome_bind, outcome_listdir.
    destruct (fs_listdir fs _) as [vers|]; [|done].
    rewrite outcome_bind.
    pose proof (boot_scan_no_assertion fs exclusions module_dict
                  (BlSpecLayout.bootdir self) vers []) as Hscan.
    destruct (outcome (foldM _ vers [])) as [e|kernels]; [congruence|done].
Qed.

(** ** Trimming *)

(** [str.strip] on sample texts.  The no-break space U+00A0 (C2 A0), the
    line separator U+2028 (E2 80 A8) and the ASCII blanks are removed at
    both ends and kept inside; the letter U+00E0 (C3 A0), whose last octet
    is the last octet of the no-break space, is kept. *)
Lemma strip_samples :
  let nbsp := String (ascii_of_nat 194) (String (ascii_of_nat 160) "") in
  let lsep :=
    String (ascii_of_nat 226)
      (String (ascii_of_nat 128) (String (ascii_of_nat 168) "")) in
  let agrave := String (ascii_of_nat 195) (String (ascii_of_nat 160) "") in
  Text.strip (nbsp +:+ " abc" +:+ nbsp +:+ "1 " +:+ lsep +:+ nbsp) = "abc" +:+ nbsp +:+ "1"
  ∧ Text.strip (lsep +:+ " " +:+ nbsp) = ""
  ∧ Text.strip (" " +:+ agrave +:+ " ") = agrave
  ∧ Text.strip "abc123 " = "abc123".
Proof. by vm_compute. Qed.

(** ** Layout construction *)

Section Init.
Variable fs : FileSystem.
Implicit Types (root : Path) (paths dirs : list string).

(** The first loop returns the trimmed text of the first candidate that
    opens, provided that every candidate before it is missing. *)
Lemma read_kernel_id_inr root paths kernel_id :
  outcome (BlSpecLayout.read_kernel_id fs root paths) = inr kernel_id ↔
  ∃ i path text,
    paths !! i = Some path
    ∧ fs_open fs (root / path)%path = Contents text
    ∧ kernel_id = Text.strip text
    ∧ ∀ j path', j < i → paths !! j = Some path' →
        fs_open fs (root / path')%path = FileNotFoundError.
Proof.
  induction paths as [|p paths IH]; cbn [BlSpecLayout.read_kernel_id].
  - split; [done|]. by intros (i & path & text & ? & _).
  - rewrite outcome_bind, outcome_open_read.
    destruct (fs_open fs (root / p)%path) as [text| |] eqn:Hp.
    + rewrite outcome_ret. split.
      * intros [= <-]. exists 0, p, text. split_and!; [done..|]. intros; lia.
      * intros ([|i] & path & text' & Hi & Hopen & -> & Hbefore); simpl in Hi.
        -- injection Hi as <-. congruence.
        -- specialize (Hbefore 0 p). rewrite Hbefore in Hp; [done|lia|done].
    + rewrite IH. split.
      * intros (i & path & text & Hi & Hopen & -> & Hbefore).
        exists (S i), path, text. split_and!; [done..|].
        intros [|j] path' Hj Hl; simpl in Hl; [congruence|].
        apply (Hbefore j); [lia|done].
      * intros ([|i] & path & text & Hi & Hopen & -> & Hbefore); simpl in Hi.
        -- congruence.
        -- exists i, path, text. split_and!; [done..|].
           intros j path' Hj Hl. apply (Hbefore (S j)); [lia|done].
    + split; [done|].
      intros ([|i] & path & text & Hi & Hopen & -> & Hbefore); simpl in Hi.
      * congruence.
      * specialize (Hbefore 0 p). rewrite Hbefore in Hp; [done|lia|done].
Qed.

Lemma read_kernel_id_not_found root paths msg :
  outcome (BlSpecLayout.read_kernel_id fs root paths) = inl (LayoutNotFound msg) ↔
  msg = "/etc/machine-id not found"
  ∧ ∀ path, path ∈ paths → fs_open fs (root / path)%path = FileNotFoundError.
Proof.
  induction paths as [|p paths IH]; cbn [BlSpecLayout.read_kernel_id].
  - split.
    + intros [= <-]. split; [done|]. by intros ? ?%elem_of_nil.
    + by intros [-> _].
  - rewrite outcome_bind, outcome_open_read.
    destruct (fs_open fs (root / p)%path) as [text| |] eqn:Hp.
    + rewrite outcome_ret. split; [done|]. intros [_ Hall].
      rewrite Hall in Hp; [done|left].
    + rewrite IH. split; intros [-> Hall]; (split; [done|]).
      * intros path [->|Hin]%elem_of_cons; [done|by apply Hall].
      * intros path Hin. apply Hall. by right.
    + split; [done|]. intros [_ Hall]. rewrite Hall in Hp; [done|left].
Qed.

(** The second loop returns the first candidate that is a directory. *)
Lemma probe_bootdir_inr root kernel_id dirs bootdir :
  outcome (BlSpecLayout.probe_bootdir fs root kernel_id dirs) = inr bootdir ↔
  ∃ i d,
    dirs !! i = Some d
    ∧ bootdir = (root / d / kernel_id)%path
    ∧ fs_is_dir fs bootdir = true
    ∧ ∀ j d', j < i → dirs !! j = Some d' →
        fs_is_dir fs (root / d' / kernel_id)%path = false.
Proof.
  induction dirs as [|d0 dirs IH]; cbn [BlSpecLayout.probe_bootdir].
  - split; [done|]. by intros (i & d & ? & _).
  - rewrite outcome_bind, outcome_is_dir. cbv beta iota.
    destruct (fs_is_dir fs (root / d0 / kernel_id)%path) eqn:Hd.
    + rewrite outcome_ret. split.
      * intros [= <-]. exists 0, d0. split_and!; [done..|]. intros; lia.
      * intros ([|i] & d & Hi & -> & Hdir & Hbefore); simpl in Hi.
        -- by injection Hi as <-.
        -- specialize (Hbefore 0 d0). rewrite Hbefore in Hd; [done|lia|done].
    + rewrite IH. split.
      * intros (i & d & Hi & -> & Hdir & Hbefore).
        exists (S i), d. split_and!; [done..|].
        intros [|j] d' Hj Hl; simpl in Hl; [congruence|].
        apply (Hbefore j); [lia|done].
      * intros ([|i] & d & Hi & -> & Hdir & Hbefore); simpl in Hi.
        -- congruence.
        -- exists i, d. split_and!; [done..|].
           intros j d' Hj Hl. apply (Hbefore (S j)); [lia|done].
Qed.

Lemma probe_bootdir_not_found root kernel_id dirs :
  (∀ d, d ∈ dirs → fs_is_dir fs (root / d / kernel_id)%path = false) →
  outcome (BlSpecLayout.probe_bootdir fs root kernel_id dirs)
  = inl (LayoutNotFound ("/boot/[EFI/]" +:+ kernel_id +:+ " not found")).
Proof.
  induction dirs as [|d0 dirs IH]; cbn [BlSpecLayout.probe_bootdir];
    intros Hall; [done|].
  rewrite outcome_bind, outcome_is_dir. cbv beta iota.
  rewrite Hall by left. apply IH. intros d Hd. apply Hall. by right.
Qed.

(** The second loop probes the candidates in their order. *)
Lemma probe_bootdir_trace root kernel_id dirs :
  trace (BlSpecLayout.probe_bootdir fs root kernel_id dirs)
  `prefix_of` (λ d, EvIsDir (root / d / kernel_id)%path) <$> dirs.
Proof.
  induction dirs as [|d0 dirs IH]; cbn [BlSpecLayout.probe_bootdir]; [done|].
  rewrite trace_bind, outcome_is_dir. cbv beta iota.
  change (trace (is_dir fs (root / d0 / kernel_id)%path))
    with [EvIsDir (root / d0 / kernel_id)%path].
  destruct (fs_is_dir fs _); simpl.
  - apply prefix_cons, prefix_nil.
  - by apply prefix_cons.
Qed.

Lemma probe_bootdir_cases root kernel_id dirs :
  (∃ bootdir, outcome (BlSpecLayout.probe_bootdir fs root kernel_id dirs) = inr bootdir)
  ∨ outcome (BlSpecLayout.probe_bootdir fs root kernel_id dirs)
    = inl (LayoutNotFound ("/boot/[EFI/]" +:+ kernel_id +:+ " not found")).
Proof.
  induction dirs as [|d0 dirs IH]; cbn [BlSpecLayout.probe_bootdir]; [by right|].
  rewrite outcome_bind, outcome_is_dir. cbv beta iota.
  destruct (fs_is_dir fs _); [left; by eexists|done].
Qed.

Lemma init_outcome root :
  outcome (BlSpecLayout.init fs root) =
  match outcome (BlSpecLayout.read_kernel_id fs root BlSpecLayout.id_paths) with
  | inl e => inl e
  | inr kernel_id =>
      match outcome (BlSpecLayout.probe_bootdir fs root kernel_id
                       BlSpecLayout.potential_dirs) with
      | inl e => inl e
      | inr bootdir => inr (BlSpecLayout.mk root bootdir)
      end
  end.
Proof.
  unfold BlSpecLayout.init. rewrite outcome_bind.
  destruct (outcome (BlSpecLayout.read_kernel_id _ _ _)); [done|].
  rewrite outcome_bind. by destruct (outcome (BlSpecLayout.probe_bootdir _ _ _ _)).
Qed.

End Init.

(** C6, as the code has it.  The identity token is the text of the first
    candidate, entry-token before machine-id, that exists, with the
    whitespace of [str.strip] removed at both ends, whether or not anything
    is left of it after trimming; a candidate is passed over only when it
    does not exist, and the constructor reports that the machine identity
    is not found exactly when no candidate exists. *)
Theorem machine_identity_first_existing (fs : FileSystem) (root : Path) :
  BlSpecLayout.id_paths = ["etc/kernel/entry-token"; "etc/machine-id"]
  ∧ (∀ kernel_id,
       outcome (BlSpecLayout.read_kernel_id fs root BlSpecLayout.id_paths)
         = inr kernel_id ↔
       ∃ i path text,
         BlSpecLayout.id_paths !! i = Some path
         ∧ fs_open fs (root / path)%path = Contents text
         ∧ kernel_id = Text.strip text
         ∧ ∀ j path', j < i → BlSpecLayout.id_paths !! j = Some path' →
             fs_open fs (root / path')%path = FileNotFoundError)
  ∧ (outcome (BlSpecLayout.init fs root)
       = inl (LayoutNotFound "/etc/machine-id not found") ↔
     ∀ path, path ∈ BlSpecLayout.id_paths →
       fs_open fs (root / path)%path = FileNotFoundError).
Proof.
  split_and!; [done|apply read_kernel_id_inr|].
  rewrite init_outcome. split.
  - destruct (outcome (BlSpecLayout.read_kernel_id _ _ _)) as [e|kernel_id] eqn:Hid.
    + intros [= ->]. by apply read_kernel_id_not_found in Hid as [_ Hall].
    + destruct (probe_bootdir_cases fs root kernel_id BlSpecLayout.potential_dirs)
        as [[bootdir ->]| ->]; [done|].
      simpl. discriminate.
  - intros Hall.
    assert (outcome (BlSpecLayout.read_kernel_id fs root BlSpecLayout.id_paths)
            = inl (LayoutNotFound "/etc/machine-id not found")) as ->; [|done].
    by apply read_kernel_id_not_found.
Qed.

(** C6, as stated, fails: a blank entry-token file is not passed over.  The
    token is the empty string although the machine-id file holds [abc123],
    the machine-id file is never opened, and the layout is built on [/boot]
    itself. *)
Lemma blank_entry_token_is_used :
  first_nonempty_token Examples.fs_blank_token ["/"] BlSpecLayout.id_paths
    = Some "abc123"
  ∧ BlSpecLayout.read_kernel_id Examples.fs_blank_token ["/"] BlSpecLayout.id_paths
    = ([EvOpen ["/"; "etc"; "kernel"; "entry-token"]], inr "")
  ∧ outcome (BlSpecLayout.init Examples.fs_blank_token ["/"])
    = inr (BlSpecLayout.mk ["/"] ["/"; "boot"]).
Proof. by vm_compute. Qed.



(** ** The real version of a boot-entry kernel *)

Section RealVersion.
Variable fs : FileSystem.
Variable exclusions : list KernelFileType.
Variable module_dict : gmap string (list FileRecord).
Hypothesis kernel_kept : KERNEL ∉ exclusions.
Hypothesis modules_ok : module_dict_ok module_dict.

Lemma module_dict_default_ok v :
  Forall (λ r, module_record r = true) (default [] (module_dict !! v)).
Proof.
  destruct (module_dict !! v) as [fobjs|] eqn:Hv; simpl; [|done].
  by eapply module_dict_ok_lookup.
Qed.

(** The records one name contributes, case by case. *)
Lemma file_records_linux dir_path :
  file_records fs exclusions module_dict dir_path "linux" =
  match fs_kernel_image fs (dir_path / "linux")%path with
  | Parsed v =>
      default [] (module_dict !! v) ++ [KernelImage (dir_path / "linux")%path v]
  | UnrecognizedKernelError _ => [GenericFile (dir_path / "linux")%path KERNEL]
  | ImageFailure => []
  end.
  Proof.
  unfold file_records. cbn [Text.startswith Ascii.eqb Bool.eqb].
  assert (default MISC (BlSpecLayout.name_map !! "linux") = KERNEL) as ->
    by by apply name_map_kernel.
  rewrite decide_True by done.
  destruct (fs_kernel_image fs _); [by rewrite decide_False..|done].
Qed.

Lemma file_records_other dir_path fn :
  fn ≠ "linux" →
  file_records fs exclusions module_dict dir_path fn =
  if Text.startswith "." fn then []
  else if decide (default MISC (BlSpecLayout.name_map !! fn) ∈ exclusions) then []
  else [GenericFile (dir_path / fn)%path (default MISC (BlSpecLayout.name_map !! fn))].
Proof.
  intros Hfn. unfold file_records. destruct (Text.startswith "." fn); [done|].
  rewrite decide_False; [done|]. by rewrite name_map_kernel.
Qed.

Lemma file_records_first dir_path fn :
  first_internal_version (file_records fs exclusions module_dict dir_path fn) =
  if decide (fn = "linux") then
    match fs_kernel_image fs (dir_path / "linux")%path with
    | Parsed v => Some v
    | _ => None
    end
  else None.
Proof.
  destruct (decide (fn = "linux")) as [->|Hfn].
  - rewrite file_records_linux. destruct (fs_kernel_image fs _) as [v|err|]; [|done..].
    rewrite first_internal_version_app, first_internal_version_None; [done|].
    apply module_record_not_image, module_dict_default_ok.
  - rewrite file_records_other by done.
    destruct (Text.startswith "." fn); [done|]. by destruct (decide _).
Qed.

Lemma entry_records_first dir_path names :
  first_internal_version
    (flat_map (file_records fs exclusions module_dict dir_path) names) =
  if decide ("linux" ∈ names) then
    match fs_kernel_image fs (dir_path / "linux")%path with
    | Parsed v => Some v
    | _ => None
    end
  else None.
Proof.
  induction names as [|fn names IH]; [done|].
  cbn [flat_map]. rewrite first_internal_version_app, file_records_first, IH.
  destruct (decide (fn = "linux")) as [->|Hfn].
  - rewrite (decide_True (P := "linux" ∈ "linux" :: names)) by left.
    destruct (fs_kernel_image fs _); [done|by destruct (decide _)..].
    - destruct (decide ("linux" ∈ names)) as [Hin|Hin].
    + rewrite decide_True; [done|by right].
    + rewrite decide_False; [done|]. rewrite elem_of_cons. naive_solver.
Qed.

Lemma boot_kernel_real_kv bootdir ver names :
  real_kv (boot_kernel fs exclusions module_dict bootdir ver names) =
  if decide ("linux" ∈ names) then
    match fs_kernel_image fs (bootdir / ver / "linux")%path with
    | Parsed v => Some v
    | _ => None
    end
  else None.
Proof.
  unfold real_kv, boot_kernel. cbn [all_files].
  rewrite first_internal_version_app, entry_records_first.
  destruct (decide _); [|done]. by destruct (fs_kernel_image fs _).
Qed.

End RealVersion.

Lemma boot_kernel_real_kv_inv fs exclusions module_dict bootdir ver names v :
  KERNEL ∉ exclusions →
  module_dict_ok module_dict →
  real_kv (boot_kernel fs exclusions module_dict bootdir ver names) = Some v →
  "linux" ∈ names
  ∧ fs_kernel_image fs (bootdir / ver / "linux")%path = Parsed v.
Proof.
  intros Hex Hok. rewrite boot_kernel_real_kv by done.
  destruct (decide ("linux" ∈ names)); [|done].
  destruct (fs_kernel_image fs _); [|done..]. by intros [= ->].
Qed.

(** ** Facts about the example trees *)

Lemma module_dict_three_ok : module_dict_ok Examples.module_dict_three.
Proof.
  apply map_Forall_to_list. apply Forall_forall. intros [mkv fobjs] Hin.
  apply elem_of_map_to_list in Hin. unfold Examples.module_dict_three in Hin.
  rewrite !lookup_insert in Hin. repeat case_decide; simplify_eq/=; done.
Qed.

Lemma not_in_nil_exclusions : KERNEL ∉ ([] : list KernelFileType).
Proof. apply not_elem_of_nil. Qed.

(** ** Unassociated module trees *)




(** ** The kernel of a boot entry in the result *)

Section BootEntryKernel.
Context (fs : FileSystem) `{ModuleDirLayout}.
Variable self : BlSpecLayout.t.
Variable exclusions : list KernelFileType.
Variable module_dict : gmap string (list FileRecord).
Variable vers : list string.
Hypothesis kernel_kept : KERNEL ∉ exclusions.
Hypothesis collected :
  get_module_dict fs exclusions (BlSpecLayout.root self / "lib/modules")%path
  = Some module_dict.
Hypothesis modules_ok : module_dict_ok module_dict.
Hypothesis listed : fs_listdir fs (BlSpecLayout.bootdir self) = Some vers.
Hypothesis all_scannable : scannable fs (BlSpecLayout.bootdir self) vers = true.

(** The run of [find_kernels], with the dictionary between its two loops:
    the kernel of an eligible boot entry is the scan of its names, followed
    in the result by the module tree of the same name when that tree is
    unmatched. *)
Lemma find_kernels_run :
  ∃ kernels,
    outcome (foldM (BlSpecLayout.scan_entry fs exclusions module_dict
                      (BlSpecLayout.bootdir self)) vers []) = inr kernels
    ∧ NoDup (Dict.keys kernels)
    ∧ NoDup (Dict.keys (fold_left BlSpecLayout.merge_modules
                          (module_items module_dict) kernels))
    ∧ outcome (BlSpecLayout.find_kernels fs self exclusions)
      = inr (Dict.values (fold_left BlSpecLayout.merge_modules
                            (module_items module_dict) kernels)).
Proof.
  destruct (boot_scan_total fs exclusions module_dict _ vers [] all_scannable)
    as [kernels Hscan].
  assert (NoDup (Dict.keys kernels)) as Hnd.
  { eapply boot_scan_NoDup; [|done]. apply NoDup_nil_2. }
  exists kernels. split_and!; [done..|by apply merge_fold_NoDup|].
  by eapply find_kernels_outcome.
Qed.

Lemma boot_entry_scanned kernels ver names :
  outcome (foldM (BlSpecLayout.scan_entry fs exclusions module_dict
                    (BlSpecLayout.bootdir self)) vers []) = inr kernels →
  ver ∈ vers →
  eligible fs (BlSpecLayout.bootdir self) ver = true →
  fs_listdir fs (BlSpecLayout.bootdir self / ver)%path = Some names →
  Dict.get ver kernels
  = Some (boot_kernel fs exclusions module_dict (BlSpecLayout.bootdir self) ver names).
Proof.
  intros Hscan Hin Hel Hnames. rewrite (boot_scan_get _ _ _ _ _ _ _ _ Hscan).
  by rewrite bool_decide_true, Hel, Hnames.
Qed.

Lemma boot_entry_merged kernels ver boot_k :
  NoDup (Dict.keys kernels) →
  Dict.get ver kernels = Some boot_k →
  ∃ tail,
    Dict.get ver (fold_left BlSpecLayout.merge_modules
                    (module_items module_dict) kernels)
    = Some (extend boot_k tail)
    ∧ (tail = [] ∨ (module_dict !! ver = Some tail ∧ ¬ matched kernels ver))
    ∧ (∀ fobjs, module_dict !! ver = Some fobjs → ¬ matched kernels ver →
         tail = fobjs)
    ∧ (module_dict !! ver = None ∨ matched kernels ver → tail = []).
Proof.
  intros Hnd Hget.
  destruct (module_dict !! ver) as [fobjs|] eqn:Hmd;
    [destruct (existsb (λ k, bool_decide (Some ver = real_kv k))
                 (Dict.values kernels)) eqn:Hex|].
  - apply existsb_matched in Hex. exists [].
    rewrite merged_get_other, extend_nil by auto.
    split_and!; [done|by left|by intros ? _ []|done].
  - assert (¬ matched kernels ver) as Hun.
    { intros Hm%existsb_matched. congruence. }
    exists fobjs. rewrite (merged_get_unmatched _ _ _ fobjs), Hget by done.
    split_and!; [done|by right|by intros ? [= ->]|].
    by intros [?|?].
  - exists []. rewrite merged_get_other, extend_nil by auto.
    split_and!; [done|by left|done|done].
Qed.

(** Every kernel of the result sits under its version, once. *)
Lemma result_kernel_unique kernels k k' :
  outcome (foldM (BlSpecLayout.scan_entry fs exclusions module_dict
                    (BlSpecLayout.bootdir self)) vers []) = inr kernels →
  let merged := fold_left BlSpecLayout.merge_modules
                  (module_items module_dict) kernels in
  Dict.get (version k) merged = Some k →
  k' ∈ Dict.values merged →
  version k' = version k →
  k' = k.
Proof.
  intros Hscan merged Hk Hin Hv.
  assert (NoDup (Dict.keys kernels)) as Hnd.
  { eapply boot_scan_NoDup; [|done]. apply NoDup_nil_2. }
  apply DictFacts.elem_of_values in Hin as [key Hkey];
    [|by apply merge_fold_NoDup].
  assert (version k' = key) as Hkeyed.
  { apply (merged_keyed module_dict kernels key k' Hnd modules_ok); [|done].
    intros key0 k0. by eapply boot_scan_keyed. }
  congruence.
Qed.

End BootEntryKernel.

Lemma flat_map_split {A B} (f : A -> list B) (l1 l2 : list A) (x : A) :
  flat_map f (l1 ++ x :: l2) = flat_map f l1 ++ f x ++ flat_map f l2.
Proof. by rewrite flat_map_app. Qed.

(** ** Matched module trees *)



(** ** Counting records *)

Section Counting.
Variable P : FileRecord -> bool.

Lemma filter_flat_map_nil {A} (f : A -> list FileRecord) (l : list A) :
  (∀ x, x ∈ l → List.filter P (f x) = []) →
  List.filter P (flat_map f l) = [].
Proof.
  induction l as [|x l IH]; intros Hall; [done|].
  cbn [flat_map]. rewrite List.filter_app, Hall by left.
  apply IH. intros y Hy. apply Hall. by right.
Qed.

Lemma filter_modules_nil (l : list FileRecord) :
  (∀ r, module_record r = true → P r = false) →
  Forall (λ r, module_record r = true) l →
  List.filter P l = [].
Proof.
  intros HP. induction 1 as [|r l Hr Hl IH]; [done|].
  cbn [List.filter]. by rewrite (HP r Hr).
Qed.

End Counting.

Lemma module_record_not_directory r :
  module_record r = true → is_empty_directory r = false.
Proof. by destruct r. Qed.

Lemma module_record_not_kernel r :
  module_record r = true → is_kernel_typed r = false.
Proof.
  destruct r as [p t| |]; simpl; [|done..]. unfold is_kernel_typed; simpl.
  intros Ht%bool_decide_eq_true. by apply bool_decide_eq_false.
Qed.

(** In a scannable boot directory, the image of every eligible entry that
    has one is read without any other error. *)
Lemma scannable_entry fs bootdir vers ver names :
  scannable fs bootdir vers = true →
  ver ∈ vers →
  eligible fs bootdir ver = true →
  fs_listdir fs (bootdir / ver)%path = Some names →
  image_readable fs (bootdir / ver)%path names = true.
Proof.
  unfold scannable. rewrite forallb_forall. intros Hall Hin Hel Hls.
  apply list_elem_of_In in Hin. specialize (Hall _ Hin).
  by rewrite Hel, Hls in Hall.
Qed.

Lemma image_readable_linux fs dir_path names :
  "linux" ∈ names →
  image_readable fs dir_path names = true →
  fs_kernel_image fs (dir_path / "linux")%path ≠ ImageFailure.
Proof.
  intros Hin. unfold image_readable. rewrite bool_decide_true by done.
  cbn [negb orb]. by destruct (fs_kernel_image fs _).
Qed.

Section EntryRecords.
Variable fs : FileSystem.
Variable exclusions : list KernelFileType.
Variable module_dict : gmap string (list FileRecord).
Hypothesis kernel_kept : KERNEL ∉ exclusions.
Hypothesis modules_ok : module_dict_ok module_dict.

Lemma file_records_no_directory dir_path fn :
  List.filter is_empty_directory
    (file_records fs exclusions module_dict dir_path fn) = [].
Proof.
  destruct (decide (fn = "linux")) as [->|Hfn].
  - rewrite file_records_linux by done.
    destruct (fs_kernel_image fs _) as [v|err|]; [|done..].
    rewrite List.filter_app. cbn [List.filter is_empty_directory app].
    rewrite app_nil_r. apply filter_modules_nil.
    + apply module_record_not_directory.
    + by apply module_dict_default_ok.
  - rewrite file_records_other by done.
    destruct (Text.startswith "." fn); [done|]. by destruct (decide _).
Qed.

Lemma file_records_kernel_linux dir_path :
  fs_kernel_image fs (dir_path / "linux")%path ≠ ImageFailure →
  length (List.filter is_kernel_typed
            (file_records fs exclusions module_dict dir_path "linux")) = 1.
Proof.
  intros Himg. rewrite file_records_linux by done.
  destruct (fs_kernel_image fs _) as [v|err|]; [|done..].
  rewrite List.filter_app, (filter_modules_nil is_kernel_typed); [done| |].
  - apply module_record_not_kernel.
  - by apply module_dict_default_ok.
Qed.

Lemma file_records_kernel_other dir_path fn :
  fn ≠ "linux" →
  List.filter is_kernel_typed
    (file_records fs exclusions module_dict dir_path fn) = [].
Proof.
  intros Hfn. rewrite file_records_other by done.
  destruct (Text.startswith "." fn); [done|]. destruct (decide _); [done|].
  cbn [List.filter]. unfold is_kernel_typed. cbn [ftype].
  rewrite bool_decide_false; [done|]. by rewrite name_map_kernel.
Qed.

(** Among distinct names, [linux] gives the one record classified KERNEL. *)
Lemma entry_records_kernel dir_path names :
  NoDup names →
  "linux" ∈ names →
  image_readable fs dir_path names = true →
  length (List.filter is_kernel_typed
            (flat_map (file_records fs exclusions module_dict dir_path) names)) = 1.
Proof.
  intros Hnd Hin Himg%image_readable_linux; [|done].
  apply list_elem_of_split in Hin as (n1 & n2 & ->).
  apply NoDup_app in Hnd as (_ & Hn1 & [Hn2 _]%NoDup_cons).
  rewrite flat_map_split, !List.filter_app, !length_app.
  rewrite file_records_kernel_linux by done.
  rewrite !filter_flat_map_nil; [done| |].
  - intros fn Hfn. apply file_records_kernel_other. by intros ->.
  - intros fn Hfn. apply file_records_kernel_other. intros ->.
    apply (Hn1 "linux"); [done|left].
Qed.

(** A [KernelImage] record of a boot entry follows the module tree of its
    internal version. *)
Lemma entry_records_image_order dir_path names p v :
  KernelImage p v ∈ flat_map (file_records fs exclusions module_dict dir_path) names →
  ∃ pre post,
    flat_map (file_records fs exclusions module_dict dir_path) names
    = pre ++ default [] (module_dict !! v) ++ KernelImage p v :: post.
Proof.
  intros Hin. apply list_elem_of_In, in_flat_map in Hin as (fn & Hfn & Hr).
  apply list_elem_of_In in Hfn, Hr.
  destruct (decide (fn = "linux")) as [->|Hne].
  - rewrite file_records_linux in Hr by done.
    destruct (fs_kernel_image fs _) as [v0|err|] eqn:Himg.
    + apply elem_of_app in Hr as [Hr|Hr].
      * pose proof (module_dict_default_ok module_dict modules_ok v0) as Hmods.
        rewrite Forall_forall in Hmods. by specialize (Hmods _ Hr).
      * apply list_elem_of_singleton in Hr. injection Hr as -> ->.
        apply list_elem_of_split in Hfn as (n1 & n2 & ->).
        eexists _, _. rewrite flat_map_split, file_records_linux, Himg by done.
        by rewrite <- app_assoc.
        + by apply list_elem_of_singleton in Hr.
        + by apply elem_of_nil in Hr.
        - rewrite file_records_other in Hr by done.
    destruct (Text.startswith "." fn); [by apply elem_of_nil in Hr|].
    destruct (decide _); [by apply elem_of_nil in Hr|].
    by apply list_elem_of_singleton in Hr.
Qed.

End EntryRecords.

(** ** The records of a boot entry *)






(** ** Traces *)

Section Traces.
Context (fs : FileSystem) `{ModuleDirLayout}.

(** An unrecognized image: the call, the debug message, the generic record. *)
Lemma scan_file_unrecognized exclusions module_dict dir_path k err :
  KERNEL ∉ exclusions →
  fs_kernel_image fs (dir_path / "linux")%path = UnrecognizedKernelError err →
  BlSpecLayout.scan_file fs exclusions module_dict dir_path k "linux"
  = ([EvKernelImage (dir_path / "linux")%path;
      EvLogDebug ("Unrecognized potential kernel image: " +:+ err)],
     inr (append k (GenericFile (dir_path / "linux")%path KERNEL))).
Proof.
  intros Hex Himg. unfold BlSpecLayout.scan_file.
  cbn [Text.startswith Ascii.eqb Bool.eqb].
  assert (default MISC (BlSpecLayout.name_map !! "linux") = KERNEL) as ->
    by by apply name_map_kernel.
  rewrite decide_True by done.
  unfold KernelImage_init, logging_debug, emit, mbind, M_bind, mret, M_ret.
  cbn [fst snd]. rewrite Himg. cbn [fst snd app].
  by rewrite decide_False.
Qed.

Lemma trace_scan_entry_elem exclusions module_dict bootdir kernels ver names fn ev :
  eligible fs bootdir ver = true →
  fs_listdir fs (bootdir / ver)%path = Some names →
  image_readable fs (bootdir / ver)%path names = true →
  fn ∈ names →
  (∀ k, ev ∈ trace (BlSpecLayout.scan_file fs exclusions module_dict
                      (bootdir / ver)%path k fn)) →
  ev ∈ trace (BlSpecLayout.scan_entry fs exclusions module_dict bootdir kernels ver).
Proof.
  intros Hel Hnames Hir Hfn Hev. unfold eligible in Hel.
  apply andb_true_iff in Hel as [[Hdot Hsl]%andb_true_iff Hdir].
  apply negb_true_iff in Hdot, Hsl.
  unfold BlSpecLayout.scan_entry. rewrite Hdot.
  rewrite trace_bind, outcome_is_symlink, Hsl. cbv beta iota.
  apply elem_of_app. right.
  rewrite trace_bind, outcome_bind, outcome_is_dir, Hdir, outcome_ret.
  cbn [negb]. cbv beta iota.
  apply elem_of_app. right.
  rewrite trace_bind, outcome_listdir, Hnames.
  apply elem_of_app. right.
  rewrite trace_bind, scan_files_outcome, Hir.
  apply elem_of_app. left.
  eapply trace_foldM_elem; [by rewrite scan_files_outcome, Hir|done|done].
Qed.

Lemma trace_find_kernels_elem self exclusions module_dict vers ev :
  KERNEL ∉ exclusions →
  get_module_dict fs exclusions (BlSpecLayout.root self / "lib/modules")%path
    = Some module_dict →
  fs_listdir fs (BlSpecLayout.bootdir self) = Some vers →
  ev ∈ trace (foldM (BlSpecLayout.scan_entry fs exclusions module_dict
                       (BlSpecLayout.bootdir self)) vers []) →
  ev ∈ trace (BlSpecLayout.find_kernels fs self exclusions).
Proof.
  intros Hex Hmd Hls Hev. unfold BlSpecLayout.find_kernels.
  rewrite decide_False by done.
  assert (outcome (call_get_module_dict fs exclusions
                     (BlSpecLayout.root self / "lib/modules")%path)
          = inr module_dict) as Hcall.
  { unfold call_get_module_dict. rewrite outcome_bind. cbn [outcome emit snd].
    by rewrite Hmd. }
  rewrite trace_bind, Hcall. apply elem_of_app. right.
  rewrite trace_bind, outcome_listdir, Hls. apply elem_of_app. right.
  rewrite trace_bind.
  destruct (outcome (foldM _ vers [])); [done|].
  apply elem_of_app. by left.
Qed.

End Traces.

(** ** Unrecognized kernel images *)



(** ** Where kernels and records come from *)

Lemma merge_fold_invariant (P : string → Kernel → Prop)
    (items : list (string * list FileRecord)) (kernels : list (string * Kernel)) :
  (∀ key k, Dict.get key kernels = Some k → P key k) →
  (∀ mkv fobjs, (mkv, fobjs) ∈ items → P mkv (extend (Kernel_new mkv) fobjs)) →
  (∀ mkv fobjs k, (mkv, fobjs) ∈ items → P mkv k → P mkv (extend k fobjs)) →
  ∀ key k,
    Dict.get key (fold_left BlSpecLayout.merge_modules items kernels) = Some k →
    P key k.
Proof.
  revert kernels. induction items as [|[mkv fobjs] items IH];
    intros kernels Hinit Hnew Hext; [done|].
  cbn [fold_left]. apply IH.
  - intros key k. rewrite merge_modules_get.
    destruct (existsb _ _); [apply Hinit|].
    destruct (decide (mkv = key)) as [->|Hne]; [|apply Hinit].
    intros [= <-]. destruct (Dict.get key kernels) as [k0|] eqn:Hk0; cbn [default].
    + apply (Hext key fobjs); [left|by apply Hinit].
    + apply Hnew. left.
  - intros mkv' fobjs' Hin. apply Hnew. by right.
  - intros mkv' fobjs' k Hin. apply Hext. by right.
Qed.

Lemma file_records_provenance fs exclusions module_dict dir_path fn r :
  r ∈ file_records fs exclusions module_dict dir_path fn →
  (∃ mkv fobjs, module_dict !! mkv = Some fobjs ∧ r ∈ fobjs)
  ∨ (Text.startswith "." fn = false ∧ path r = (dir_path / fn)%path).
Proof.
  unfold file_records. destruct (Text.startswith "." fn); [by intros ?%elem_of_nil|].
  assert (∀ fobj, path fobj = (dir_path / fn)%path →
            r ∈ (if decide (default MISC (BlSpecLayout.name_map !! fn) ∈ exclusions)
                 then [] else [fobj]) →
            path r = (dir_path / fn)%path) as Hkeep.
  { intros fobj Hp. destruct (decide _); [by intros ?%elem_of_nil|].
    by intros ->%list_elem_of_singleton. }
  destruct (decide (_ = KERNEL)).
  - destruct (fs_kernel_image fs _) as [v|err|].
    + intros [Hr|Hr]%elem_of_app.
      * left. destruct (module_dict !! v) as [fobjs|] eqn:Hv;
          [by exists v, fobjs|by apply elem_of_nil in Hr].
      * right. split; [done|]. by refine (Hkeep _ _ Hr).
    + intros Hr. right. split; [done|]. by refine (Hkeep _ _ Hr).
    + by intros ?%elem_of_nil.
  - intros Hr. right. split; [done|]. by refine (Hkeep _ _ Hr).
Qed.

Section Provenance.
Context (fs : FileSystem) `{ModuleDirLayout}.

Lemma find_kernels_inr_inv self exclusions module_dict vers ks :
  get_module_dict fs exclusions (BlSpecLayout.root self / "lib/modules")%path
    = Some module_dict →
  fs_listdir fs (BlSpecLayout.bootdir self) = Some vers →
  outcome (BlSpecLayout.find_kernels fs self exclusions) = inr ks →
  (KERNEL ∉ exclusions)
  ∧ (∃ kernels,
       outcome (foldM (BlSpecLayout.scan_entry fs exclusions module_dict
                         (BlSpecLayout.bootdir self)) vers []) = inr kernels
       ∧ ks = Dict.values (fold_left BlSpecLayout.merge_modules
                             (module_items module_dict) kernels)).
Proof.
  intros Hmd Hls. unfold BlSpecLayout.find_kernels.
  destruct (decide (KERNEL ∈ exclusions)) as [Hin|Hex]; [done|].
  rewrite outcome_bind. unfold call_get_module_dict at 1.
  rewrite outcome_bind. cbn [outcome emit snd]. rewrite Hmd, outcome_ret.
  rewrite outcome_bind, outcome_listdir, Hls, outcome_bind.
  destruct (outcome (foldM _ vers [])) as [e|kernels]; [done|].
  intros [= <-]. split; [done|]. by exists kernels.
Qed.

End Provenance.

(** C8. Every kernel of the result is keyed by a name of the boot directory
    that is not hidden, not a symlink and a directory, or by a key of the
    module-tree mapping; and every record of a kernel is a record of a
    module tree, the [EmptyDirectory] of a scanned boot entry, or the record
    of a name in the listing of a scanned boot entry that does not start
    with a dot.  Hidden entries, symlinks and non-directories of the boot
    directory, and hidden names inside a boot entry, yield nothing. *)
Theorem hidden_and_non_directories_skipped
    (fs : FileSystem) `{ModuleDirLayout} (self : BlSpecLayout.t)
    (exclusions : list KernelFileType)
    (module_dict : gmap string (list FileRecord)) (vers : list string)
    (ks : list Kernel) :
  get_module_dict fs exclusions (BlSpecLayout.root self / "lib/modules")%path
    = Some module_dict →
  fs_listdir fs (BlSpecLayout.bootdir self) = Some vers →
  outcome (BlSpecLayout.find_kernels fs self exclusions) = inr ks →
  ∀ k, k ∈ ks →
    let scanned :=
      version k ∈ vers
      ∧ Text.startswith "." (version k) = false
      ∧ fs_is_symlink fs (BlSpecLayout.bootdir self / version k)%path = false
      ∧ fs_is_dir fs (BlSpecLayout.bootdir self / version k)%path = true in
    (scanned ∨ is_Some (module_dict !! version k))
    ∧ ∀ r, r ∈ all_files k →
        (∃ mkv fobjs, module_dict !! mkv = Some fobjs ∧ r ∈ fobjs)
        ∨ (scanned
           ∧ r = EmptyDirectory (BlSpecLayout.bootdir self / version k)%path)
        ∨ (scanned
           ∧ ∃ names fn,
               fs_listdir fs (BlSpecLayout.bootdir self / version k)%path
                 = Some names
               ∧ fn ∈ names
               ∧ Text.startswith "." fn = false
               ∧ path r = (BlSpecLayout.bootdir self / version k / fn)%path).
Proof.
  intros Hmd Hls Hfind.
  destruct (find_kernels_inr_inv fs self exclusions module_dict vers ks
              Hmd Hls Hfind) as (Hex & kernels & Hscan & ->).
  assert (NoDup (Dict.keys kernels)) as Hnd.
  { eapply boot_scan_NoDup; [|done]. apply NoDup_nil_2. }
  set (bootdir := BlSpecLayout.bootdir self) in *.
  set (scanned := λ key : string,
         key ∈ vers
         ∧ Text.startswith "." key = false
         ∧ fs_is_symlink fs (bootdir / key)%path = false
         ∧ fs_is_dir fs (bootdir / key)%path = true).
  set (P := λ (key : string) (k : Kernel),
         version k = key
         ∧ (scanned key ∨ is_Some (module_dict !! key))
         ∧ ∀ r, r ∈ all_files k →
             (∃ mkv fobjs, module_dict !! mkv = Some fobjs ∧ r ∈ fobjs)
             ∨ (scanned key ∧ r = EmptyDirectory (bootdir / key)%path)
             ∨ (scanned key
                ∧ ∃ names fn,
                    fs_listdir fs (bootdir / key)%path = Some names
                    ∧ fn ∈ names
                    ∧ Text.startswith "." fn = false
                    ∧ path r = (bootdir / key / fn)%path)).
  assert (∀ key k,
            Dict.get key (fold_left BlSpecLayout.merge_modules
                            (module_items module_dict) kernels) = Some k →
            P key k) as Hall.
  { apply merge_fold_invariant.
    - intros key k. rewrite (boot_scan_get _ _ _ _ _ _ _ _ Hscan).
      destruct (bool_decide (key ∈ vers)) eqn:Hin; [|done].
      apply bool_decide_eq_true in Hin.
      destruct (eligible fs bootdir key) eqn:Hel; [|done]. cbn [andb].
      destruct (fs_listdir fs (bootdir / key)%path) as [names|] eqn:Hnames;
        [|done].
      intros [= <-].
      assert (scanned key) as Hsc.
      { unfold eligible in Hel.
        apply andb_true_iff in Hel as [[Hdot Hsl]%andb_true_iff Hdir].
        apply negb_true_iff in Hdot, Hsl. done. }
      split_and!; [done|by left|].
      intros r [Hr|Hr]%elem_of_app.
      + apply list_elem_of_In, in_flat_map in Hr as (fn & Hfn & Hr).
        apply list_elem_of_In in Hfn, Hr.
        apply file_records_provenance in Hr as [Hr|[Hdot Hp]]; [by left|].
        right. right. split; [done|]. by exists names, fn.
      + apply list_elem_of_singleton in Hr. right. by left.
    - intros mkv fobjs Hin%elem_of_module_items. split_and!; [done|by right|].
      intros r Hr. left. by exists mkv, fobjs.
    - intros mkv fobjs k Hin%elem_of_module_items (Hv & Hkey & Hrec).
      split_and!; [done..|].
      intros r [Hr|Hr]%elem_of_app; [by apply Hrec|].
      left. by exists mkv, fobjs. }
  intros k Hk.
  apply DictFacts.elem_of_values in Hk as [key Hkey];
    [|by apply merge_fold_NoDup].
  destruct (Hall key k Hkey) as (Hv & Hsrc & Hrec). subst key.
  split; [exact Hsrc|exact Hrec].
Qed.

Lemma hidden_and_non_directories_skipped_witness :
  ∃ ks,
    outcome (BlSpecLayout.find_kernels Examples.fs_two_entries
               (H := Examples.layout_three) Examples.self_abc123 []) = inr ks
    ∧ Forall (λ k,
                version k ∈ ["5.10.0"; ".hid"; "X"]
                ∧ Text.startswith "." (version k) = false
                ∨ is_Some (Examples.module_dict_three !! version k)) ks.
Proof.
  eexists. split; [by vm_compute|].
  apply Forall_forall. intros k Hk.
  destruct (hidden_and_non_directories_skipped Examples.fs_two_entries
              (H := Examples.layout_three) Examples.self_abc123 []
              Examples.module_dict_three ["5.10.0"; ".hid"; "X"] _
              eq_refl eq_refl eq_refl k Hk) as [[(Hin & Hdot & _)|Hmod] _].
  - left. split; [exact Hin|exact Hdot].
  - right. exact Hmod.
Defined.

(** ** Paths of names *)

Lemma split_no_separator (sep : ascii) (s : string) :
  Text.contains sep s = false → Text.split sep s = [s].
Proof.
  induction s as [|c s IH]; [done|]. cbn [Text.contains Text.split].
  intros [Hc Hs]%orb_false_iff. by rewrite Hc, (IH Hs).
Qed.

(** Joining a file name appends one part. *)
Lemma joinpath_name (p : Path) (s : string) :
  PathOps.is_name s = true → (p / s)%path = p ++ [s].
Proof.
  unfold PathOps.is_name, PathOps.joinpath, PathOps.parts.
  intros [[Hne Hdot]%andb_true_iff Hslash%negb_true_iff]%andb_true_iff.
  rewrite split_no_separator by done.
  cbn [List.filter]. unfold PathOps.is_part. rewrite Hne, Hdot. cbn [andb].
  destruct s as [|c s]; [done|]. cbn [Text.startswith].
  cbn [Text.contains] in Hslash. apply orb_false_iff in Hslash as [-> _]. done.
Qed.

Lemma DictFacts_get_elem {V} (d : list (string * V)) (key : string) (v : V) :
  NoDup (Dict.keys d) → (key, v) ∈ d → Dict.get key d = Some v.
Proof.
  unfold Dict.keys. induction d as [|[k w] d IH]; intros Hnd Hin;
    [by apply elem_of_nil in Hin|].
  cbn [fmap list_fmap fst] in Hnd. apply NoDup_cons in Hnd as [Hk Hnd].
  cbn [Dict.get]. apply elem_of_cons in Hin as [[= <- <-]|Hin].
  - by rewrite decide_True.
  - rewrite decide_False; [by apply IH|].
    intros ->. apply Hk. apply list_elem_of_fmap. by exists (key, v).
Qed.

Lemma DictFacts_get_lookup {V} (d : list (string * V)) (key : string) (v : V) :
  Dict.get key d = Some v → ∃ i, d !! i = Some (key, v).
Proof.
  induction d as [|[k w] d IH]; [done|]. cbn [Dict.get].
  destruct (decide (k = key)) as [->|Hne].
  - intros [= ->]. by exists 0.
  - intros Hg. destruct (IH Hg) as [i Hi]. by exists (S i).
Qed.

(** ** Ownership of records *)

Section Ownership.
Context (fs : FileSystem) `{ModuleDirLayout}.
Variable self : BlSpecLayout.t.
Variable exclusions : list KernelFileType.
Variable module_dict : gmap string (list FileRecord).
Variable vers : list string.
Variable kernels : list (string * Kernel).
Hypothesis kernel_kept : KERNEL ∉ exclusions.
Hypothesis modules_ok : module_dict_ok module_dict.
Hypothesis listing_ok : names_ok fs (BlSpecLayout.bootdir self) vers = true.
Hypothesis scanned :
  outcome (foldM (BlSpecLayout.scan_entry fs exclusions module_dict
                    (BlSpecLayout.bootdir self)) vers []) = inr kernels.

(** A record of a kernel of the boot-entry scan lies under the directory
    of the entry, or in the module tree of the kernel's real version. *)
Lemma boot_record_origin key k r :
  Dict.get key kernels = Some k →
  r ∈ all_files k →
  (BlSpecLayout.bootdir self ++ [key]) `prefix_of` path r
  ∨ (∃ v fobjs,
       real_kv k = Some v ∧ module_dict !! v = Some fobjs ∧ r ∈ fobjs).
Proof.
  rewrite (boot_scan_get _ _ _ _ _ _ _ _ scanned).
  destruct (bool_decide (key ∈ vers)) eqn:Hin; [|done].
  apply bool_decide_eq_true in Hin.
  destruct (eligible fs _ key); [|done]. cbn [andb].
  destruct (fs_listdir fs (BlSpecLayout.bootdir self / key)%path)
    as [names|] eqn:Hnames; [|done].
  intros [= <-].
  unfold names_ok in listing_ok. rewrite forallb_forall in listing_ok.
  specialize (listing_ok key (proj1 (list_elem_of_In _ _) Hin)).
  rewrite Hnames in listing_ok.
  apply andb_true_iff in listing_ok as [Hkey Hfns].
  rewrite forallb_forall in Hfns.
  set (dir_path := (BlSpecLayout.bootdir self / key)%path) in *.
  assert (dir_path = BlSpecLayout.bootdir self ++ [key]) as Hdir
    by by apply joinpath_name.
  cbn [all_files boot_kernel]. fold dir_path.
  intros [Hr|Hr]%elem_of_app.
  - apply list_elem_of_In, in_flat_map in Hr as (fn & Hfn & Hr).
    apply list_elem_of_In in Hr.
    assert ((dir_path / fn)%path = (BlSpecLayout.bootdir self ++ [key]) ++ [fn])
      as Hpath.
    { rewrite joinpath_name by by apply Hfns. by rewrite Hdir. }
    destruct (decide (fn = "linux")) as [->|Hne].
    + rewrite file_records_linux in Hr by done.
      destruct (fs_kernel_image fs (dir_path / "linux")%path) as [v|err|] eqn:Himg.
      * apply elem_of_app in Hr as [Hr|Hr].
        -- right. destruct (module_dict !! v) as [fobjs|] eqn:Hv;
             [|by apply elem_of_nil in Hr].
           exists v, fobjs. split_and!; [|done..].
           rewrite boot_kernel_real_kv by done. fold dir_path.
           rewrite decide_True by by apply list_elem_of_In.
           by rewrite Himg.
        -- apply list_elem_of_singleton in Hr. subst r. left.
           cbn [path]. rewrite Hpath. by apply prefix_app_r.
      * apply list_elem_of_singleton in Hr. subst r. left.
        cbn [path]. rewrite Hpath. by apply prefix_app_r.
      * by apply elem_of_nil in Hr.
      + rewrite file_records_other in Hr by done.
      destruct (Text.startswith "." fn); [by apply elem_of_nil in Hr|].
      destruct (decide _); [by apply elem_of_nil in Hr|].
      apply list_elem_of_singleton in Hr. subst r. left.
      cbn [path]. rewrite Hpath. by apply prefix_app_r.
  - apply list_elem_of_singleton in Hr. subst r. left. cbn [path].
    by rewrite Hdir.
Qed.

(** A record of a kernel of the result lies under the directory of the boot
    entry with the kernel's key, or in the module tree matched by the
    kernel's image, or in the unmatched module tree of the kernel's key. *)
Lemma result_record_origin key k r :
  Dict.get key (fold_left BlSpecLayout.merge_modules
                  (module_items module_dict) kernels) = Some k →
  r ∈ all_files k →
  (BlSpecLayout.bootdir self ++ [key]) `prefix_of` path r
  ∨ (∃ boot_k v fobjs,
       Dict.get key kernels = Some boot_k
       ∧ real_kv boot_k = Some v
       ∧ module_dict !! v = Some fobjs ∧ r ∈ fobjs)
  ∨ (∃ fobjs,
       module_dict !! key = Some fobjs ∧ ¬ matched kernels key ∧ r ∈ fobjs).
Proof.
  assert (NoDup (Dict.keys kernels)) as Hnd.
  { eapply boot_scan_NoDup; [|done]. apply NoDup_nil_2. }
  assert (∀ boot_k, Dict.get key kernels = Some boot_k → r ∈ all_files boot_k →
            (BlSpecLayout.bootdir self ++ [key]) `prefix_of` path r
            ∨ (∃ boot_k v fobjs,
                 Dict.get key kernels = Some boot_k
                 ∧ real_kv boot_k = Some v
                 ∧ module_dict !! v = Some fobjs ∧ r ∈ fobjs)) as Hboot.
  { intros boot_k Hget Hr.
    destruct (boot_record_origin key boot_k r Hget Hr)
      as [Hp|(v & fobjs & Hv & Hl & Hin)]; [by left|].
    right. by exists boot_k, v, fobjs. }
  destruct (module_dict !! key) as [fobjs|] eqn:Hmd;
    [destruct (existsb (λ k, bool_decide (Some key = real_kv k))
                 (Dict.values kernels)) eqn:Hex|].
  - apply existsb_matched in Hex. rewrite merged_get_other by auto.
    intros Hget Hr. destruct (Hboot k Hget Hr); auto.
  - assert (¬ matched kernels key) as Hun.
    { intros Hm%existsb_matched. congruence. }
    rewrite (merged_get_unmatched _ _ _ fobjs) by done.
    intros [= <-]. cbn [all_files extend].
    intros [Hr|Hr]%elem_of_app.
    + destruct (Dict.get key kernels) as [boot_k|] eqn:Hget; cbn [default] in Hr;
        [|by apply elem_of_nil in Hr].
      destruct (Hboot boot_k eq_refl Hr); auto.
    + right. right. by exists fobjs.
  - rewrite merged_get_other by auto.
 intros Hget Hr. destruct (Hboot k Hget Hr); auto.
Qed.

(** A kernel of the boot-entry scan whose image reports a module-tree key
   holds the records of that tree in the result. *)
Lemma boot_kernel_holds_tree key boot_k v fobjs :
 Dict.get key kernels = Some boot_k →
 real_kv boot_k = Some v →
 module_dict !! v = Some fobjs →
 ∃ k pre post,
   Dict.get key (fold_left BlSpecLayout.merge_modules
                   (module_items module_dict) kernels) = Some k
   ∧ version k = key
   ∧ all_files k = pre ++ fobjs ++ post.
Proof.
 intros Hget Hv Hl.
 assert (NoDup (Dict.keys kernels)) as Hnd.
 { eapply boot_scan_NoDup; [|done]. apply NoDup_nil_2. }
 pose proof Hget as Hget'.
 rewrite (boot_scan_get _ _ _ _ _ _ _ _ scanned) in Hget'.
 destruct (_ && _); [|done].
 destruct (fs_listdir fs (BlSpecLayout.bootdir self / key)%path)
   as [names|] eqn:Hnames; [|done].
 injection Hget' as <-.
 destruct (boot_kernel_real_kv_inv _ _ _ _ _ _ _ kernel_kept modules_ok Hv)
   as [Hlinux Himg].
 destruct (boot_entry_merged module_dict modules_ok kernels key _ Hnd Hget)
   as (tail & Hmerged & _).
 apply list_elem_of_split in Hlinux as (n1 & n2 & ->).
 set (dir_path := (BlSpecLayout.bootdir self / key)%path) in *.
 exists (extend (boot_kernel fs exclusions module_dict
                   (BlSpecLayout.bootdir self) key (n1 ++ "linux" :: n2)) tail),
   (flat_map (file_records fs exclusions module_dict dir_path) n1),
   (KernelImage (dir_path / "linux")%path v
    :: flat_map (file_records fs exclusions module_dict dir_path) n2
    ++ [EmptyDirectory dir_path] ++ tail).
 split_and!; [done|done|].
 cbn [all_files extend boot_kernel]. fold dir_path.
 rewrite flat_map_split.
 rewrite (file_records_linux fs exclusions module_dict kernel_kept), Himg, Hl.
 cbn [default]. by rewrite <- !app_assoc.
Qed.

End Ownership.

(** C2, as the code has it.  When the boot-entry scan completes,
    [find_kernels] returns, and no record is owned by two kernels of the
    result provided that no two kernels of the boot-entry scan report the
    same real version when that version is a module-tree key.  When two
    boot entries do report the same real version and it is a module-tree
    key, the kernels of both entries in the result hold every record of that
    module tree.  The module trees are taken as the collector gives them:
    generic records not classified KERNEL, the trees of different keys
    disjoint, and none under the boot directory; the names of the boot
    directory and of its entries are file names. *)
Theorem kernels_own_disjoint_files
    (fs : FileSystem) `{ModuleDirLayout} (self : BlSpecLayout.t)
    (exclusions : list KernelFileType)
    (module_dict : gmap string (list FileRecord)) (vers : list string)
    (kernels : list (string * Kernel)) :
  KERNEL ∉ exclusions →
  get_module_dict fs exclusions (BlSpecLayout.root self / "lib/modules")%path
    = Some module_dict →
  module_dict_ok module_dict →
  (∀ mkv1 mkv2 fobjs1 fobjs2 r,
     module_dict !! mkv1 = Some fobjs1 → module_dict !! mkv2 = Some fobjs2 →
     r ∈ fobjs1 → r ∈ fobjs2 → mkv1 = mkv2) →
  (∀ mkv fobjs r,
     module_dict !! mkv = Some fobjs → r ∈ fobjs →
     ¬ BlSpecLayout.bootdir self `prefix_of` path r) →
  fs_listdir fs (BlSpecLayout.bootdir self) = Some vers →
  names_ok fs (BlSpecLayout.bootdir self) vers = true →
  outcome (foldM (BlSpecLayout.scan_entry fs exclusions module_dict
                    (BlSpecLayout.bootdir self)) vers []) = inr kernels →
  ∃ ks,
    outcome (BlSpecLayout.find_kernels fs self exclusions) = inr ks
    ∧ ((∀ key1 key2 k1 k2 v,
          Dict.get key1 kernels = Some k1 → Dict.get key2 kernels = Some k2 →
          real_kv k1 = Some v → real_kv k2 = Some v →
          is_Some (module_dict !! v) → key1 = key2) →
       ∀ i j k1 k2 r,
         i ≠ j → ks !! i = Some k1 → ks !! j = Some k2 →
         r ∈ all_files k1 → r ∈ all_files k2 → False)
    ∧ (∀ key1 key2 boot_k1 boot_k2 v fobjs,
         key1 ≠ key2 →
         Dict.get key1 kernels = Some boot_k1 →
         Dict.get key2 kernels = Some boot_k2 →
         real_kv boot_k1 = Some v → real_kv boot_k2 = Some v →
         module_dict !! v = Some fobjs →
         ∃ i j k1 k2,
           i ≠ j ∧ ks !! i = Some k1 ∧ ks !! j = Some k2
           ∧ version k1 = key1 ∧ version k2 = key2
           ∧ ∀ r, r ∈ fobjs → r ∈ all_files k1 ∧ r ∈ all_files k2).
Proof.
  intros Hex Hmd Hok Hdisj Hout Hls Hnames Hscan.
  eexists. split; [by eapply find_kernels_outcome|].
  assert (NoDup (Dict.keys kernels)) as Hnd.
  { eapply boot_scan_NoDup; [|done]. apply NoDup_nil_2. }
  pose proof (merge_fold_NoDup (module_items module_dict) kernels Hnd) as Hnd'.
  set (merged := fold_left BlSpecLayout.merge_modules
                   (module_items module_dict) kernels) in *.
  split; [intros Hreal|]; cycle 1.
  { intros key1 key2 boot_k1 boot_k2 v fobjs Hne Hg1 Hg2 Hv1 Hv2 Hl.
    destruct (boot_kernel_holds_tree fs self exclusions module_dict vers kernels
                Hex Hok Hscan key1 boot_k1 v fobjs Hg1 Hv1 Hl)
      as (k1 & pre1 & post1 & Hm1 & Hver1 & Hf1).
    destruct (boot_kernel_holds_tree fs self exclusions module_dict vers kernels
                Hex Hok Hscan key2 boot_k2 v fobjs Hg2 Hv2 Hl)
      as (k2 & pre2 & post2 & Hm2 & Hver2 & Hf2).
    fold merged in Hm1, Hm2.
    destruct (DictFacts_get_lookup _ _ _ Hm1) as [i Hi].
    destruct (DictFacts_get_lookup _ _ _ Hm2) as [j Hj].
    exists i, j, k1, k2. split_and!; [|..|done|done|].
    - intros ->. rewrite Hi in Hj. by injection Hj.
    - unfold Dict.values. by rewrite list_lookup_fmap, Hi.
    - unfold Dict.values. by rewrite list_lookup_fmap, Hj.
    - intros r Hr. rewrite Hf1, Hf2, !elem_of_app. auto. }
  intros i j k1 k2 r Hij Hi Hj Hr1 Hr2.
  unfold Dict.values in Hi, Hj.
  apply list_lookup_fmap_Some in Hi as ([key1 k1'] & -> & Hi).
  apply list_lookup_fmap_Some in Hj as ([key2 k2'] & -> & Hj).
  cbn [snd] in *.
  assert (key1 ≠ key2) as Hkeys.
  { intros ->. apply Hij.
    apply (NoDup_lookup (Dict.keys merged) i j key2 Hnd').
    - unfold Dict.keys. rewrite list_lookup_fmap. by rewrite Hi.
    - unfold Dict.keys. rewrite list_lookup_fmap. by rewrite Hj. }
  assert (Dict.get key1 merged = Some k1') as Hg1.
  { apply DictFacts_get_elem; [done|]. by eapply list_elem_of_lookup_2. }
  assert (Dict.get key2 merged = Some k2') as Hg2.
  { apply DictFacts_get_elem; [done|]. by eapply list_elem_of_lookup_2. }
  pose proof (result_record_origin fs self exclusions module_dict vers kernels
                Hex Hok Hnames Hscan key1 k1' r Hg1 Hr1) as Ho1.
  pose proof (result_record_origin fs self exclusions module_dict vers kernels
                Hex Hok Hnames Hscan key2 k2' r Hg2 Hr2) as Ho2.
  assert (∀ key, (BlSpecLayout.bootdir self ++ [key]) `prefix_of` path r →
            BlSpecLayout.bootdir self `prefix_of` path r) as Hunder.
  { intros key Hp. etrans; [|exact Hp]. by apply prefix_app_r. }
  assert (∀ key boot_k v,
            Dict.get key kernels = Some boot_k → real_kv boot_k = Some v →
            matched kernels v) as Hmatched.
  { intros key boot_k v Hg Hv. exists boot_k. split; [|done].
    apply DictFacts.elem_of_values; [done|]. by exists key. }
  destruct Ho1 as [Hp1|[(b1 & v1 & f1 & Hb1 & Hv1 & Hl1 & Hin1)
                        |(f1 & Hl1 & Hun1 & Hin1)]];
    destruct Ho2 as [Hp2|[(b2 & v2 & f2 & Hb2 & Hv2 & Hl2 & Hin2)
                          |(f2 & Hl2 & Hun2 & Hin2)]].
  - apply Hkeys.
    destruct Hp1 as [t1 Ht1], Hp2 as [t2 Ht2]. rewrite Ht1 in Ht2.
    rewrite <- !app_assoc in Ht2. apply app_inv_head in Ht2.
    by injection Ht2.
  - by eapply Hout, Hunder.
  - by eapply Hout, Hunder.
  - by eapply Hout, Hunder.
  - apply Hkeys. assert (v1 = v2) as -> by by eapply Hdisj.
    by eapply (Hreal key1 key2 b1 b2 v2).
  - assert (v1 = key2) as -> by by eapply Hdisj.
    apply Hun2. by eapply Hmatched.
  - by eapply Hout, Hunder.
  - assert (v2 = key1) as -> by by eapply Hdisj.
    apply Hun1. by eapply Hmatched.
  - apply Hkeys. by eapply Hdisj.
Qed.

Lemma module_dict_three_lookup mkv fobjs :
  Examples.module_dict_three !! mkv = Some fobjs → fobjs = Examples.modules_of mkv.
Proof.
  unfold Examples.module_dict_three. rewrite !lookup_insert, lookup_empty.
  repeat case_decide; intros [= <-]; by subst.
Qed.

Lemma module_dict_three_disjoint mkv1 mkv2 fobjs1 fobjs2 r :
  Examples.module_dict_three !! mkv1 = Some fobjs1 →
  Examples.module_dict_three !! mkv2 = Some fobjs2 →
  r ∈ fobjs1 → r ∈ fobjs2 → mkv1 = mkv2.
Proof.
  intros ->%module_dict_three_lookup ->%module_dict_three_lookup.
  unfold Examples.modules_of.
  intros ->%list_elem_of_singleton [= ->]%list_elem_of_singleton. done.
Qed.

Lemma module_dict_three_outside mkv fobjs r :
  Examples.module_dict_three !! mkv = Some fobjs → r ∈ fobjs →
  ¬ BlSpecLayout.bootdir Examples.self_abc123 `prefix_of` path r.
Proof.
  intros ->%module_dict_three_lookup ->%list_elem_of_singleton [t Ht].
  cbn in Ht. discriminate Ht.
Qed.

Lemma scan_two_entries :
  outcome (foldM (BlSpecLayout.scan_entry Examples.fs_two_entries []
                    Examples.module_dict_three
                    (BlSpecLayout.bootdir Examples.self_abc123))
             ["5.10.0"; ".hid"; "X"] [])
  = inr Examples.kernels_two_entries.
Proof. by vm_compute. Qed.

Lemma two_entries_real_versions key1 key2 k1 k2 v :
  Dict.get key1 Examples.kernels_two_entries = Some k1 →
  Dict.get key2 Examples.kernels_two_entries = Some k2 →
  real_kv k1 = Some v → real_kv k2 = Some v →
  is_Some (Examples.module_dict_three !! v) → key1 = key2.
Proof.
  unfold Examples.kernels_two_entries. cbn [Dict.get].
  intros H1 H2 Hv1 Hv2 _.
  repeat case_decide; simplify_eq; try done;
    vm_compute in Hv1, Hv2; congruence.
Qed.

Lemma kernels_own_disjoint_files_witness :
  ∃ ks,
    outcome (BlSpecLayout.find_kernels Examples.fs_two_entries
               (H := Examples.layout_three) Examples.self_abc123 []) = inr ks
    ∧ ∀ i j k1 k2 r,
        i ≠ j → ks !! i = Some k1 → ks !! j = Some k2 →
        r ∈ all_files k1 → r ∈ all_files k2 → False.
Proof.
  destruct (kernels_own_disjoint_files Examples.fs_two_entries
              (H := Examples.layout_three) Examples.self_abc123 []
              Examples.module_dict_three ["5.10.0"; ".hid"; "X"]
              Examples.kernels_two_entries
              not_in_nil_exclusions eq_refl module_dict_three_ok
              module_dict_three_disjoint module_dict_three_outside
              eq_refl eq_refl scan_two_entries)
    as (ks & Hfind & Hdisjoint & _).
  exists ks. split; [exact Hfind|].
  exact (Hdisjoint two_entries_real_versions).
  Defined.

(** C2, as stated, fails: the images of the boot entries [A] and [B] report
    the same version [v], and the record of the module tree [v] is owned by
    both kernels. *)
Lemma same_version_kernels_share_modules :
  outcome (BlSpecLayout.find_kernels Examples.fs_same_version
             (H := Examples.layout_v) Examples.self_abc123 [])
  = inr [ {| version := "A";
             all_files :=
               [ GenericFile ["/"; "lib"; "modules"; "v"] MODULES;
                 KernelImage (Examples.boot_abc123 ++ ["A"; "linux"]) "v";
                 EmptyDirectory (Examples.boot_abc123 ++ ["A"]) ] |};
          {| version := "B";
             all_files :=
               [ GenericFile ["/"; "lib"; "modules"; "v"] MODULES;
                 KernelImage (Examples.boot_abc123 ++ ["B"; "linux"]) "v";
                 EmptyDirectory (Examples.boot_abc123 ++ ["B"]) ] |} ]
  ∧ (∃ ks k1 k2 r,
       outcome (BlSpecLayout.find_kernels Examples.fs_same_version
                  (H := Examples.layout_v) Examples.self_abc123 []) = inr ks
       ∧ ks !! 0 = Some k1 ∧ ks !! 1 = Some k2
       ∧ r ∈ all_files k1 ∧ r ∈ all_files k2).
Proof.
  split; [by vm_compute|].
  eexists _, _, _, (GenericFile ["/"; "lib"; "modules"; "v"] MODULES).
  split; [by vm_compute|]. split_and!; [done|done|left|left].
Qed.

(** * Further properties of the layout *)

(** ** Failures in the constructor *)

Lemma read_kernel_id_trace fs root paths :
  trace (BlSpecLayout.read_kernel_id fs root paths)
  `prefix_of` (λ path, EvOpen (root / path)%path) <$> paths.
Proof.
  induction paths as [|p paths IH]; cbn [BlSpecLayout.read_kernel_id]; [done|].
  rewrite trace_bind, outcome_open_read.
  change (trace (open_read fs (root / p)%path))
    with (EvOpen (root / p)%path
          :: trace (match fs_open fs (root / p)%path with
                    | Contents text => mret (Some text)
                    | FileNotFoundError => mret None
                    | OpenError => raise (OSError (root / p)%path)
                    end : M (option string))).
  destruct (fs_open fs (root / p)%path); cbn [trace fst mret M_ret raise app fmap list_fmap].
  - apply prefix_cons, prefix_nil.
  - by apply prefix_cons.
  - apply prefix_cons, prefix_nil.
Qed.

Lemma read_kernel_id_open_error fs root paths i path :
  paths !! i = Some path →
  fs_open fs (root / path)%path = OpenError →
  (∀ j path', j < i → paths !! j = Some path' →
     fs_open fs (root / path')%path = FileNotFoundError) →
  BlSpecLayout.read_kernel_id fs root paths
  = ((λ path, EvOpen (root / path)%path) <$> take (S i) paths,
     inl (OSError (root / path)%path)).
Proof.
  revert i. induction paths as [|p paths IH]; intros i Hi Herr Hbefore; [done|].
  cbn [BlSpecLayout.read_kernel_id]. destruct i as [|i]; cbn in Hi.
  - injection Hi as ->. unfold open_read, emit, mbind, M_bind. cbn [fst snd].
    rewrite Herr. reflexivity.
  - unfold open_read, emit, mbind, M_bind. cbn [fst snd].
    rewrite (Hbefore 0 p) by (done || lia). cbn [fst snd mret M_ret app].
    rewrite (IH i Hi Herr).
    + reflexivity.
    + intros j path' Hj Hl. apply (Hbefore (S j)); [lia|done].
Qed.

(** X1. The constructor opens the candidate files in their order, and a
    candidate that exists but cannot be read ends the construction with that
    error: no later candidate is opened and no directory is probed. *)
Theorem init_open_error_propagates
    (fs : FileSystem) (root : Path) (i : nat) (path : string) :
  BlSpecLayout.id_paths !! i = Some path →
  fs_open fs (root / path)%path = OpenError →
  (∀ j path', j < i → BlSpecLayout.id_paths !! j = Some path' →
     fs_open fs (root / path')%path = FileNotFoundError) →
  BlSpecLayout.init fs root
  = ((λ path, EvOpen (root / path)%path) <$> take (S i) BlSpecLayout.id_paths,
     inl (OSError (root / path)%path)).
Proof.
  intros Hi Herr Hbefore. unfold BlSpecLayout.init.
  by rewrite (read_kernel_id_open_error fs root _ i path Hi Herr Hbefore).
Qed.

Lemma init_open_error_propagates_witness :
  BlSpecLayout.init Examples.fs_unreadable_token ["/"]
  = ([EvOpen ["/"; "etc"; "kernel"; "entry-token"]],
     inl (OSError ["/"; "etc"; "kernel"; "entry-token"])).
Proof.
  apply (init_open_error_propagates Examples.fs_unreadable_token ["/"] 0
           "etc/kernel/entry-token" eq_refl eq_refl).
  intros j path' Hj. lia.
Defined.

(** ** Failures and order in [find_kernels] *)

(** X2. When KERNEL is not excluded, [find_kernels] first collects the
    module directories, with the caller's exclusions and under
    [root/lib/modules]; and when that collection fails, the failure is the
    outcome and no directory has been listed. *)
Theorem module_collection_comes_first
    (fs : FileSystem) `{ModuleDirLayout} (self : BlSpecLayout.t)
    (exclusions : list KernelFileType) :
  KERNEL ∉ exclusions →
  (∃ rest,
     trace (BlSpecLayout.find_kernels fs self exclusions)
     = EvGetModuleDict exclusions (BlSpecLayout.root self / "lib/modules")%path
       :: rest)
  ∧ (get_module_dict fs exclusions (BlSpecLayout.root self / "lib/modules")%path
       = None →
     BlSpecLayout.find_kernels fs self exclusions
     = ([EvGetModuleDict exclusions (BlSpecLayout.root self / "lib/modules")%path],
        inl (OSError (BlSpecLayout.root self / "lib/modules")%path))).
Proof.
  intros Hex. unfold BlSpecLayout.find_kernels. rewrite decide_False by done.
  unfold call_get_module_dict, emit, mbind, M_bind. cbn [fst snd].
  destruct (get_module_dict fs exclusions _) as [module_dict|];
    cbn [fst snd mret M_ret raise app].
  - split; [|done]. by eexists.
  - split; [|done]. by eexists.
Qed.

Lemma module_collection_comes_first_witness :
  BlSpecLayout.find_kernels Examples.fs_two_entries (H := Examples.layout_failing)
    Examples.self_abc123 [MISC]
  = ([EvGetModuleDict [MISC] ["/"; "lib"; "modules"]],
     inl (OSError ["/"; "lib"; "modules"])).
Proof.
  assert (KERNEL ∉ [MISC]) as Hex.
  { intros Hin. apply list_elem_of_singleton in Hin. discriminate Hin. }
  exact (proj2 (module_collection_comes_first Examples.fs_two_entries
                  (H := Examples.layout_failing) Examples.self_abc123 [MISC] Hex)
               eq_refl).
Defined.

Lemma boot_scan_first_unlistable fs exclusions module_dict bootdir pre ver post kernels0 :
  scannable fs bootdir pre = true →
  eligible fs bootdir ver = true →
  fs_listdir fs (bootdir / ver)%path = None →
  outcome (foldM (BlSpecLayout.scan_entry fs exclusions module_dict bootdir)
             (pre ++ ver :: post) kernels0)
  = inl (OSError (bootdir / ver)%path).
Proof.
  intros Hpre Hel Hnone. rewrite outcome_foldM_app.
  destruct (boot_scan_total fs exclusions module_dict bootdir pre kernels0 Hpre)
    as [kernels ->].
  cbn [foldM]. by rewrite outcome_bind, scan_entry_outcome, Hel, Hnone.
Qed.



Lemma boot_scan_first_unreadable
    fs exclusions module_dict bootdir pre ver post names kernels0 :
  scannable fs bootdir pre = true →
  eligible fs bootdir ver = true →
  fs_listdir fs (bootdir / ver)%path = Some names →
  "linux" ∈ names →
  fs_kernel_image fs (bootdir / ver / "linux")%path = ImageFailure →
  outcome (foldM (BlSpecLayout.scan_entry fs exclusions module_dict bootdir)
             (pre ++ ver :: post) kernels0)
  = inl (KernelImageFailure (bootdir / ver / "linux")%path).
Proof.
  intros Hpre Hel Hnames Hin Himg. rewrite outcome_foldM_app.
  destruct (boot_scan_total fs exclusions module_dict bootdir pre kernels0 Hpre)
    as [kernels ->].
  cbn [foldM]. rewrite outcome_bind, scan_entry_outcome, Hel, Hnames.
  unfold image_readable. rewrite bool_decide_true by done. by rewrite Himg.
Qed.



(** ** Exclusions and classification *)

Lemma file_records_not_excluded fs exclusions module_dict dir_path fn r :
  r ∈ file_records fs exclusions module_dict dir_path fn →
  (∃ mkv fobjs, module_dict !! mkv = Some fobjs ∧ r ∈ fobjs)
  ∨ ftype r ∉ exclusions.
Proof.
  unfold file_records. destruct (Text.startswith "." fn); [by intros ?%elem_of_nil|].
  set (t := default MISC (BlSpecLayout.name_map !! fn)).
  assert (∀ fobj, ftype fobj = t →
            r ∈ (if decide (t ∈ exclusions) then [] else [fobj]) →
            ftype r ∉ exclusions) as Hkeep.
  { intros fobj Ht. destruct (decide _) as [|Hnot]; [by intros ?%elem_of_nil|].
    intros ->%list_elem_of_singleton. by rewrite Ht. }
  destruct (decide (t = KERNEL)) as [Hk|Hk].
  - destruct (fs_kernel_image fs _) as [v|err|].
    + intros [Hr|Hr]%elem_of_app.
      * left. destruct (module_dict !! v) as [fobjs|] eqn:Hv;
          [by exists v, fobjs|by apply elem_of_nil in Hr].
      * right. by refine (Hkeep _ _ Hr).
    + intros Hr. right. by refine (Hkeep _ _ Hr).
    + by intros ?%elem_of_nil.
  - intros Hr. right. by refine (Hkeep _ _ Hr).
Qed.

(** X4. The exclusion set is respected: in every kernel that
    [find_kernels] returns, a record that is neither a record of a module
    tree nor the [EmptyDirectory] of the boot entry has a type that is not
    excluded. *)
Theorem excluded_types_not_collected
    (fs : FileSystem) `{ModuleDirLayout} (self : BlSpecLayout.t)
    (exclusions : list KernelFileType)
    (module_dict : gmap string (list FileRecord)) (vers : list string)
    (ks : list Kernel) :
  get_module_dict fs exclusions (BlSpecLayout.root self / "lib/modules")%path
    = Some module_dict →
  fs_listdir fs (BlSpecLayout.bootdir self) = Some vers →
  outcome (BlSpecLayout.find_kernels fs self exclusions) = inr ks →
  ∀ k r, k ∈ ks → r ∈ all_files k →
    (∃ mkv fobjs, module_dict !! mkv = Some fobjs ∧ r ∈ fobjs)
    ∨ r = EmptyDirectory (BlSpecLayout.bootdir self / version k)%path
    ∨ ftype r ∉ exclusions.
Proof.
  intros Hmd Hls Hfind.
  destruct (find_kernels_inr_inv fs self exclusions module_dict vers ks
              Hmd Hls Hfind) as (Hex & kernels & Hscan & ->).
  assert (NoDup (Dict.keys kernels)) as Hnd.
  { eapply boot_scan_NoDup; [|done]. apply NoDup_nil_2. }
  set (bootdir := BlSpecLayout.bootdir self) in *.
  set (P := λ (key : string) (k : Kernel),
         version k = key
         ∧ ∀ r, r ∈ all_files k →
             (∃ mkv fobjs, module_dict !! mkv = Some fobjs ∧ r ∈ fobjs)
             ∨ r = EmptyDirectory (bootdir / key)%path
             ∨ ftype r ∉ exclusions).
  assert (∀ key k,
            Dict.get key (fold_left BlSpecLayout.merge_modules
                            (module_items module_dict) kernels) = Some k →
            P key k) as Hall.
  { apply merge_fold_invariant.
    - intros key k. rewrite (boot_scan_get _ _ _ _ _ _ _ _ Hscan).
      destruct (_ && _); [|done].
      destruct (fs_listdir fs (bootdir / key)%path) as [names|]; [|done].
      intros [= <-]. split; [done|].
      intros r [Hr|Hr]%elem_of_app.
      + apply list_elem_of_In, in_flat_map in Hr as (fn & Hfn & Hr).
        apply list_elem_of_In in Hr.
        apply file_records_not_excluded in Hr as [Hr|Hr]; auto.
      + apply list_elem_of_singleton in Hr. auto.
    - intros mkv fobjs Hin%elem_of_module_items. split; [done|].
      intros r Hr. left. by exists mkv, fobjs.
    - intros mkv fobjs k Hin%elem_of_module_items [Hv Hrec]. split; [done|].
      intros r [Hr|Hr]%elem_of_app; [by apply Hrec|].
      left. by exists mkv, fobjs. }
  intros k r Hk Hr.
  apply DictFacts.elem_of_values in Hk as [key Hkey];
    [|by apply merge_fold_NoDup].
  destruct (Hall key k Hkey) as [Hv Hrec]. subst key. by apply Hrec.
Qed.

Lemma excluded_types_not_collected_witness :
  ∃ ks,
    outcome (BlSpecLayout.find_kernels Examples.fs_two_entries
               (H := Examples.layout_three) Examples.self_abc123 [INITRAMFS])
    = inr ks
    ∧ Forall (λ k, Forall (λ r, ftype r ≠ INITRAMFS) (all_files k)) ks.
Proof.
  eexists. split; [by vm_compute|].
  apply Forall_forall. intros k Hk. apply Forall_forall. intros r Hr.
  destruct (excluded_types_not_collected Examples.fs_two_entries
              (H := Examples.layout_three) Examples.self_abc123 [INITRAMFS]
              Examples.module_dict_three ["5.10.0"; ".hid"; "X"] _
              eq_refl eq_refl eq_refl k r Hk Hr)
    as [(mkv & fobjs & Hl & Hin)|[->|Hnot]].
  - apply module_dict_three_lookup in Hl. subst fobjs.
    apply list_elem_of_singleton in Hin. by subst r.
  - done.
  - intros Ht. apply Hnot. rewrite Ht. left.
Defined.

Lemma merged_extends items kernels key k :
  Dict.get key kernels = Some k →
  ∃ tail,
    Dict.get key (fold_left BlSpecLayout.merge_modules items kernels)
    = Some (extend k tail).
Proof.
  revert kernels k. induction items as [|[mkv fobjs] items IH];
    intros kernels k Hget.
  - exists []. by rewrite extend_nil.
  - cbn [fold_left].
    assert (∃ t, Dict.get key (BlSpecLayout.merge_modules kernels (mkv, fobjs))
                 = Some (extend k t)) as [t Ht].
    { rewrite merge_modules_get. destruct (existsb _ _).
      - exists []. by rewrite extend_nil.
      - destruct (decide (mkv = key)) as [->|Hne].
        + exists fobjs. by rewrite Hget.
        + exists []. by rewrite extend_nil. }
    destruct (IH _ _ Ht) as [tail Htail]. exists (t ++ tail).
    by rewrite Htail, extend_extend.
Qed.

Lemma name_map_default fn :
  default MISC (BlSpecLayout.name_map !! fn) =
  if decide (fn = "initrd") then INITRAMFS
  else if decide (fn = "linux") then KERNEL else MISC.
Proof. rewrite name_map_lookup. by repeat case_decide. Qed.

Lemma file_records_own fs exclusions module_dict dir_path fn :
  Text.startswith "." fn = false →
  default MISC (BlSpecLayout.name_map !! fn) ∉ exclusions →
  (fn = "linux" → fs_kernel_image fs (dir_path / "linux")%path ≠ ImageFailure) →
  ∃ r,
    r ∈ file_records fs exclusions module_dict dir_path fn
    ∧ path r = (dir_path / fn)%path
    ∧ ftype r = default MISC (BlSpecLayout.name_map !! fn).
Proof.
  intros Hdot Hex Himg. unfold file_records. rewrite Hdot. cbv zeta.
  destruct (decide (_ ∈ exclusions)) as [|_]; [done|].
  destruct (decide (_ = KERNEL)) as [Hk|Hk].
  - pose proof (proj1 (name_map_kernel fn) Hk) as ->. specialize (Himg eq_refl).
    destruct (fs_kernel_image fs _) as [v|err|]; [| |done].
    + eexists. split; [apply elem_of_app; right; left|]. by rewrite Hk.
    + eexists. split; [left|done].
  - eexists. split; [left|done].
Qed.



(** ** The list of kernels *)

Lemma boot_scan_keys fs exclusions module_dict bootdir vers kernels0 kernels :
  NoDup vers →
  (∀ ver, ver ∈ vers → ver ∉ Dict.keys kernels0) →
  outcome (foldM (BlSpecLayout.scan_entry fs exclusions module_dict bootdir)
             vers kernels0) = inr kernels →
  Dict.keys kernels = Dict.keys kernels0 ++ List.filter (eligible fs bootdir) vers.
Proof.
  revert kernels0. induction vers as [|ver vers IH]; intros kernels0 Hnd Hfresh.
  - cbn [foldM List.filter]. intros [= <-]. by rewrite app_nil_r.
  - apply NoDup_cons in Hnd as [Hver Hnd]. cbn [foldM List.filter].
    rewrite outcome_bind, scan_entry_outcome.
    destruct (eligible fs bootdir ver).
    + destruct (fs_listdir fs _) as [names|]; [|done].
      destruct (image_readable fs _ names); [|done].
      intros Hrest. rewrite (IH _ Hnd) with (2 := Hrest).
      * rewrite DictFacts.keys_set, decide_False by (apply Hfresh; left).
        by rewrite <- app_assoc.
      * intros v Hv. rewrite DictFacts.keys_set, decide_False by (apply Hfresh; left).
        rewrite elem_of_app, list_elem_of_singleton.
        intros [Hin| ->]; [|done]. apply (Hfresh v); [by right|done].
    + intros Hrest. apply (IH _ Hnd); [|done].
      intros v Hv. apply Hfresh. by right.
Qed.

Lemma merge_modules_keys kernels mkv fobjs :
  (Dict.keys (BlSpecLayout.merge_modules kernels (mkv, fobjs)) = Dict.keys kernels)
  ∨ ((mkv ∉ Dict.keys kernels)
     ∧ Dict.keys (BlSpecLayout.merge_modules kernels (mkv, fobjs))
       = Dict.keys kernels ++ [mkv]).
Proof.
  unfold BlSpecLayout.merge_modules. destruct (existsb _ _); [by left|].
  rewrite DictFacts.keys_update. unfold Dict.setdefault.
  destruct (Dict.get mkv kernels) eqn:Hget; [by left|].
  apply DictFacts.get_None in Hget. right. split; [done|].
  by rewrite DictFacts.keys_set, decide_False.
Qed.

Lemma merge_fold_keys items kernels :
  ∃ orphans,
    Dict.keys (fold_left BlSpecLayout.merge_modules items kernels)
    = Dict.keys kernels ++ orphans
    ∧ ∀ mkv, mkv ∈ orphans → mkv ∈ items.*1 ∧ mkv ∉ Dict.keys kernels.
Proof.
  revert kernels. induction items as [|[mkv fobjs] items IH]; intros kernels.
  - exists []. split; [by rewrite app_nil_r|]. by intros ? ?%elem_of_nil.
  - cbn [fold_left].
    destruct (IH (BlSpecLayout.merge_modules kernels (mkv, fobjs)))
      as (orphans & Hkeys & Horph).
    destruct (merge_modules_keys kernels mkv fobjs) as [Hsame|[Hfresh Hadd]].
    + exists orphans. rewrite Hkeys, Hsame. split; [done|].
      intros m Hm. destruct (Horph m Hm) as [Hin Hnot]. rewrite Hsame in Hnot.
      split; [by right|done].
    + exists (mkv :: orphans). rewrite Hkeys, Hadd, <- app_assoc.
      split; [done|].
      intros m [->|Hm]%elem_of_cons.
      * split; [left|done].
      * destruct (Horph m Hm) as [Hin Hnot]. rewrite Hadd in Hnot.
        split; [by right|]. intros Hk. apply Hnot, elem_of_app. by left.
Qed.

Lemma values_versions (d : list (string * Kernel)) :
  (∀ key k, (key, k) ∈ d → version k = key) →
  version <$> Dict.values d = Dict.keys d.
Proof.
  unfold Dict.values, Dict.keys. induction d as [|[key k] d IH]; intros Hkeyed;
    [done|].
  cbn [fmap list_fmap fst snd]. rewrite (Hkeyed key k) by left. f_equal.
  apply IH. intros key' k' Hin. apply Hkeyed. by right.
Qed.

Lemma result_versions fs `{ModuleDirLayout} exclusions module_dict bootdir vers kernels :
  outcome (foldM (BlSpecLayout.scan_entry fs exclusions module_dict bootdir)
             vers []) = inr kernels →
  let merged := fold_left BlSpecLayout.merge_modules
                  (module_items module_dict) kernels in
  version <$> Dict.values merged = Dict.keys merged.
Proof.
  intros Hscan merged. apply values_versions.
  assert (NoDup (Dict.keys kernels)) as Hnd.
  { eapply boot_scan_NoDup; [|done]. apply NoDup_nil_2. }
  intros key k Hin.
  apply DictFacts_get_elem in Hin; [|by apply merge_fold_NoDup].
  revert key k Hin.
  apply (merge_fold_invariant (λ key k, version k = key)); [|done..].
  intros key k. by eapply boot_scan_keyed.
Qed.

(** X6. No two kernels that [find_kernels] returns have the same version. *)
Theorem kernel_versions_distinct
    (fs : FileSystem) `{ModuleDirLayout} (self : BlSpecLayout.t)
    (exclusions : list KernelFileType)
    (module_dict : gmap string (list FileRecord)) (vers : list string)
    (ks : list Kernel) :
  get_module_dict fs exclusions (BlSpecLayout.root self / "lib/modules")%path
    = Some module_dict →
  fs_listdir fs (BlSpecLayout.bootdir self) = Some vers →
  outcome (BlSpecLayout.find_kernels fs self exclusions) = inr ks →
  NoDup (version <$> ks).
Proof.
  intros Hmd Hls Hfind.
  destruct (find_kernels_inr_inv fs self exclusions module_dict vers ks
              Hmd Hls Hfind) as (Hex & kernels & Hscan & ->).
  rewrite (result_versions _ _ _ _ _ _ Hscan).
  apply merge_fold_NoDup. eapply boot_scan_NoDup; [|done]. apply NoDup_nil_2.
Qed.

Lemma kernel_versions_distinct_witness :
  ∃ ks,
    outcome (BlSpecLayout.find_kernels Examples.fs_two_entries
               (H := Examples.layout_three) Examples.self_abc123 []) = inr ks
    ∧ NoDup (version <$> ks).
Proof.
  eexists. split; [by vm_compute|].
  exact (kernel_versions_distinct Examples.fs_two_entries
           (H := Examples.layout_three) Examples.self_abc123 []
           Examples.module_dict_three ["5.10.0"; ".hid"; "X"] _
           eq_refl eq_refl eq_refl).
Defined.

(** X7. The kernels are returned in the order of the dictionary: first the
    kernels of the scanned boot entries, in the order in which the boot
    directory lists them, then the kernels made for module trees, whose
    versions are module-tree keys that name no scanned boot entry. *)
Theorem boot_entries_listed_first
    (fs : FileSystem) `{ModuleDirLayout} (self : BlSpecLayout.t)
    (exclusions : list KernelFileType)
    (module_dict : gmap string (list FileRecord)) (vers : list string)
    (ks : list Kernel) :
  get_module_dict fs exclusions (BlSpecLayout.root self / "lib/modules")%path
    = Some module_dict →
  fs_listdir fs (BlSpecLayout.bootdir self) = Some vers →
  NoDup vers →
  outcome (BlSpecLayout.find_kernels fs self exclusions) = inr ks →
  ∃ orphans,
    version <$> ks
    = List.filter (eligible fs (BlSpecLayout.bootdir self)) vers ++ orphans
    ∧ ∀ mkv, mkv ∈ orphans →
        is_Some (module_dict !! mkv)
        ∧ mkv ∉ List.filter (eligible fs (BlSpecLayout.bootdir self)) vers.
Proof.
  intros Hmd Hls Hvers Hfind.
  destruct (find_kernels_inr_inv fs self exclusions module_dict vers ks
              Hmd Hls Hfind) as (Hex & kernels & Hscan & ->).
  rewrite (result_versions _ _ _ _ _ _ Hscan).
  destruct (merge_fold_keys (module_items module_dict) kernels)
    as (orphans & Hkeys & Horph).
  assert (Dict.keys kernels
          = List.filter (eligible fs (BlSpecLayout.bootdir self)) vers) as Hboot.
  { rewrite (boot_scan_keys _ _ _ _ _ _ _ Hvers) with (2 := Hscan); [done|].
    intros ver _. apply not_elem_of_nil. }
  exists orphans. rewrite Hkeys, Hboot. split; [done|].
  intros mkv Hm. destruct (Horph mkv Hm) as [Hin Hnot]. rewrite Hboot in Hnot.
  split; [|done].
  apply list_elem_of_fmap in Hin as ([m fobjs] & -> & Hin).
  apply elem_of_module_items in Hin. by eexists.
Qed.

Lemma boot_entries_listed_first_witness :
  ∃ ks orphans,
    outcome (BlSpecLayout.find_kernels Examples.fs_two_entries
               (H := Examples.layout_three) Examples.self_abc123 []) = inr ks
    ∧ version <$> ks = ["5.10.0"; "X"] ++ orphans.
Proof.
  assert (NoDup ["5.10.0"; ".hid"; "X"]) as Hnd.
  { repeat (apply NoDup_cons; split;
              [rewrite ?elem_of_cons, elem_of_nil;
               intros H'; repeat destruct H' as [H'|H']; done|]).
    apply NoDup_nil_2. }
  destruct (boot_entries_listed_first Examples.fs_two_entries
              (H := Examples.layout_three) Examples.self_abc123 []
              Examples.module_dict_three ["5.10.0"; ".hid"; "X"]
              (Dict.values (fold_left BlSpecLayout.merge_modules
                              (@module_items Examples.layout_three
                                 Examples.module_dict_three)
                              Examples.kernels_two_entries))
              eq_refl eq_refl Hnd)
    as (orphans & Hversions & _).
  - by vm_compute.
  - eexists _, orphans. split; [by vm_compute|]. exact Hversions.
Defined.

(** ** Module trees *)

Lemma boot_scan_nothing_eligible fs exclusions module_dict bootdir vers kernels0 :
  Forall (λ ver, eligible fs bootdir ver = false) vers →
  outcome (foldM (BlSpecLayout.scan_entry fs exclusions module_dict bootdir)
             vers kernels0) = inr kernels0.
Proof.
  induction 1 as [|ver vers Hver _ IH]; [done|].
  cbn [foldM]. by rewrite outcome_bind, scan_entry_outcome, Hver.
Qed.





(** ** What the discovery touches *)

Lemma trace_foldM_Forall {A B} (P : event → Prop) (f : A → B → M A) l a :
  (∀ a0 b, b ∈ l → Forall P (trace (f a0 b))) →
  Forall P (trace (foldM f l a)).
Proof.
  revert a. induction l as [|b l IH]; intros a Hf; [by apply Forall_nil_2|].
  cbn [foldM]. rewrite trace_bind.
  destruct (outcome (f a b)) as [e|a1]; [apply Hf; left|].
  apply Forall_app. split; [apply Hf; left|].
  apply IH. intros a0 b0 Hb0. apply Hf. by right.
Qed.

(** The events of one name of a boot entry: none, or the reading of the
    image at [dir_path/linux], with a debug message when it fails. *)
Lemma scan_file_trace fs exclusions module_dict dir_path k fn :
  Forall (λ ev, ev = EvKernelImage (dir_path / "linux")%path
                ∨ ∃ msg, ev = EvLogDebug msg)
         (trace (BlSpecLayout.scan_file fs exclusions module_dict dir_path k fn)).
Proof.
  unfold BlSpecLayout.scan_file.
  destruct (Text.startswith "." fn); [by apply Forall_nil_2|].
  destruct (decide (default MISC (BlSpecLayout.name_map !! fn) = KERNEL))
    as [Hk|Hk].
  - apply name_map_kernel in Hk. subst fn.
    unfold KernelImage_init, logging_debug, emit, mbind, M_bind. cbn [fst snd].
    destruct (fs_kernel_image fs _) as [v|err|]; cbn [fst snd mret M_ret raise app].
    + apply Forall_cons. split; [by left|apply Forall_nil_2].
    + apply Forall_cons. split; [by left|].
      apply Forall_cons. split; [right; by eexists|apply Forall_nil_2].
    + apply Forall_cons. split; [by left|apply Forall_nil_2].
  - unfold mbind, M_bind, mret, M_ret. cbn [fst snd app]. apply Forall_nil_2.
Qed.

Lemma scan_entry_trace fs exclusions module_dict bootdir kernels ver :
  Forall (λ ev,
            match ev with
            | EvIsSymlink p | EvIsDir p => p = (bootdir / ver)%path
            | EvListDir p =>
                eligible fs bootdir ver = true ∧ p = (bootdir / ver)%path
            | EvKernelImage p =>
                eligible fs bootdir ver = true
                ∧ p = (bootdir / ver / "linux")%path
            | EvLogDebug _ => True
            | EvOpen _ | EvGetModuleDict _ _ => False
            end)
         (trace (BlSpecLayout.scan_entry fs exclusions module_dict bootdir
                   kernels ver)).
Proof.
  unfold BlSpecLayout.scan_entry, eligible.
  destruct (Text.startswith "." ver); [by apply Forall_nil_2|].
  rewrite trace_bind, outcome_is_symlink. cbv beta iota.
  apply Forall_app. split.
  { apply Forall_cons. split; [done|apply Forall_nil_2]. }
  destruct (fs_is_symlink fs _).
  { rewrite trace_bind, outcome_ret. apply Forall_nil_2. }
  rewrite trace_bind, outcome_bind, outcome_is_dir, outcome_ret.
  apply Forall_app. split.
  { rewrite trace_bind, outcome_is_dir. apply Forall_app.
    split; [|apply Forall_nil_2].
    apply Forall_cons. split; [done|apply Forall_nil_2]. }
  destruct (fs_is_dir fs _); cbn [negb andb]; [|apply Forall_nil_2].
  rewrite trace_bind, outcome_listdir.
  assert (Forall (λ ev,
                    match ev with
                    | EvIsSymlink p | EvIsDir p => p = (bootdir / ver)%path
                    | EvListDir p => true = true ∧ p = (bootdir / ver)%path
                    | EvKernelImage p =>
                        true = true ∧ p = (bootdir / ver / "linux")%path
                    | EvLogDebug _ => True
                    | EvOpen _ | EvGetModuleDict _ _ => False
                    end)
                 (trace (listdir fs (bootdir / ver)%path))) as Hlist.
  { unfold listdir, emit, mbind, M_bind. cbn [fst snd].
    destruct (fs_listdir fs _); cbn [fst snd mret M_ret raise app];
      (apply Forall_cons; split; [done|apply Forall_nil_2]). }
  destruct (fs_listdir fs _) as [names|]; [|done].
  apply Forall_app. split; [done|].
  rewrite trace_bind, scan_files_outcome.
  destruct (image_readable fs _ names);
    [apply Forall_app; split; [|apply Forall_nil_2]|];
    (apply trace_foldM_Forall; intros k fn _;
     eapply Forall_impl; [apply scan_file_trace|];
     intros ev [->|[msg ->]]; done).
Qed.

(** X9. What [find_kernels] touches.  It opens no file itself; besides the
    boot directory it lists only boot entries that it scans (not hidden, not
    a symlink, a directory); and it reads a kernel image only from the name
    [linux] of such an entry. *)
Theorem discovery_touches_only_boot_entries
    (fs : FileSystem) `{ModuleDirLayout} (self : BlSpecLayout.t)
    (exclusions : list KernelFileType) :
  Forall (λ ev,
            match ev with
            | EvOpen _ => False
            | EvListDir p =>
                p = BlSpecLayout.bootdir self
                ∨ ∃ vers ver,
                    fs_listdir fs (BlSpecLayout.bootdir self) = Some vers
                    ∧ ver ∈ vers
                    ∧ eligible fs (BlSpecLayout.bootdir self) ver = true
                    ∧ p = (BlSpecLayout.bootdir self / ver)%path
            | EvKernelImage p =>
                ∃ vers ver,
                  fs_listdir fs (BlSpecLayout.bootdir self) = Some vers
                  ∧ ver ∈ vers
                  ∧ eligible fs (BlSpecLayout.bootdir self) ver = true
                  ∧ p = (BlSpecLayout.bootdir self / ver / "linux")%path
            | _ => True
            end)
         (trace (BlSpecLayout.find_kernels fs self exclusions)).
Proof.
  unfold BlSpecLayout.find_kernels.
  destruct (decide (KERNEL ∈ exclusions)); [by apply Forall_nil_2|].
  set (Q := λ ev : event, match ev with EvOpen _ => False | _ => _ end).
  assert (Forall Q (trace (call_get_module_dict fs exclusions
                             (BlSpecLayout.root self / "lib/modules")%path)))
    as Hcall.
  { unfold call_get_module_dict, emit, mbind, M_bind. cbn [fst snd].
    destruct (get_module_dict fs exclusions _); cbn [fst snd mret M_ret raise app];
      (apply Forall_cons; split; [done|apply Forall_nil_2]). }
  assert (Forall Q (trace (listdir fs (BlSpecLayout.bootdir self)))) as Hlist.
  { unfold listdir, emit, mbind, M_bind. cbn [fst snd].
    destruct (fs_listdir fs _); cbn [fst snd mret M_ret raise app];
      (apply Forall_cons; split; [by left|apply Forall_nil_2]). }
  rewrite trace_bind.
  destruct (outcome (call_get_module_dict fs exclusions _)) as [e|module_dict];
    [done|].
  apply Forall_app. split; [done|].
  rewrite trace_bind, outcome_listdir.
  destruct (fs_listdir fs (BlSpecLayout.bootdir self)) as [vers|] eqn:Hls;
    [|done].
  apply Forall_app. split; [done|].
  rewrite trace_bind. subst Q. cbv beta.
  assert (Forall (λ ev,
                    match ev with
                    | EvOpen _ => False
                    | EvListDir p =>
                        p = BlSpecLayout.bootdir self
                        ∨ ∃ vers0 ver,
                            Some vers = Some vers0
                            ∧ ver ∈ vers0
                            ∧ eligible fs (BlSpecLayout.bootdir self) ver = true
                            ∧ p = (BlSpecLayout.bootdir self / ver)%path
                    | EvKernelImage p =>
                        ∃ vers0 ver,
                          Some vers = Some vers0
                          ∧ ver ∈ vers0
                          ∧ eligible fs (BlSpecLayout.bootdir self) ver = true
                          ∧ p = (BlSpecLayout.bootdir self / ver / "linux")%path
                    | _ => True
                    end)
                 (trace (foldM (BlSpecLayout.scan_entry fs exclusions module_dict
                                  (BlSpecLayout.bootdir self)) vers [])))
    as Hscan.
  { apply trace_foldM_Forall. intros kernels ver Hver.
    eapply Forall_impl; [apply scan_entry_trace|].
    intros [p|p|p|p|p|? ?|msg]; try done.
    - intros [Hel ->]. right. by exists vers, ver.
    - intros [Hel ->]. by exists vers, ver. }
  destruct (outcome (foldM _ vers [])); [done|].
  apply Forall_app. split; [done|apply Forall_nil_2].
Qed.

Lemma merge_fold_all_matched items kernels :
  (∀ mkv fobjs, (mkv, fobjs) ∈ items → matched kernels mkv) →
  fold_left BlSpecLayout.merge_modules items kernels = kernels.
Proof.
  induction items as [|[mkv fobjs] items IH]; intros Hall; [done|].
  cbn [fold_left].
  assert (BlSpecLayout.merge_modules kernels (mkv, fobjs) = kernels) as ->.
  { unfold BlSpecLayout.merge_modules.
    assert (existsb (λ k, bool_decide (Some mkv = real_kv k))
              (Dict.values kernels) = true) as ->; [|done].
    apply existsb_matched. apply (Hall mkv fobjs). left. }
  apply IH. intros m f Hin. apply (Hall m f). by right.
Qed.

(** X11. When every module tree is matched, that is when each key of the
    mapping is the real version of some kernel of the boot-entry scan, the
    last loop changes nothing: the result is exactly the kernels of the
    boot-entry scan, and no kernel is made for a module tree. *)
Theorem all_matched_no_orphans
    (fs : FileSystem) `{ModuleDirLayout} (self : BlSpecLayout.t)
    (exclusions : list KernelFileType)
    (module_dict : gmap string (list FileRecord)) (vers : list string)
    (kernels : list (string * Kernel)) :
  KERNEL ∉ exclusions →
  get_module_dict fs exclusions (BlSpecLayout.root self / "lib/modules")%path
    = Some module_dict →
  fs_listdir fs (BlSpecLayout.bootdir self) = Some vers →
  outcome (foldM (BlSpecLayout.scan_entry fs exclusions module_dict
                    (BlSpecLayout.bootdir self)) vers []) = inr kernels →
  (∀ mkv, is_Some (module_dict !! mkv) →
     ∃ k, k ∈ Dict.values kernels ∧ real_kv k = Some mkv) →
  outcome (BlSpecLayout.find_kernels fs self exclusions)
  = inr (Dict.values kernels).
Proof.
  intros Hex Hmd Hls Hscan Hall.
  rewrite (find_kernels_outcome fs self exclusions module_dict vers kernels)
    by done.
  rewrite merge_fold_all_matched; [done|].
  intros mkv fobjs Hin%elem_of_module_items. apply Hall. by eexists.
Qed.

Lemma all_matched_no_orphans_witness :
  outcome (BlSpecLayout.find_kernels Examples.fs_same_version
             (H := Examples.layout_v) Examples.self_abc123 [])
  = inr [ {| version := "A";
             all_files :=
               [ GenericFile ["/"; "lib"; "modules"; "v"] MODULES;
                 KernelImage (Examples.boot_abc123 ++ ["A"; "linux"]) "v";
                 EmptyDirectory (Examples.boot_abc123 ++ ["A"]) ] |};
          {| version := "B";
             all_files :=
               [ GenericFile ["/"; "lib"; "modules"; "v"] MODULES;
                 KernelImage (Examples.boot_abc123 ++ ["B"; "linux"]) "v";
                 EmptyDirectory (Examples.boot_abc123 ++ ["B"]) ] |} ].
Proof.
  apply (all_matched_no_orphans Examples.fs_same_version
           (H := Examples.layout_v) Examples.self_abc123 []
           (<["v" := Examples.modules_of "v"]> ∅) ["A"; "B"]
           [ ("A", {| version := "A";
                      all_files :=
                        [ GenericFile ["/"; "lib"; "modules"; "v"] MODULES;
                          KernelImage (Examples.boot_abc123 ++ ["A"; "linux"]) "v";
                          EmptyDirectory (Examples.boot_abc123 ++ ["A"]) ] |});
             ("B", {| version := "B";
                      all_files :=
                        [ GenericFile ["/"; "lib"; "modules"; "v"] MODULES;
                          KernelImage (Examples.boot_abc123 ++ ["B"; "linux"]) "v";
                          EmptyDirectory (Examples.boot_abc123 ++ ["B"]) ] |}) ]
           not_in_nil_exclusions eq_refl eq_refl).
  - vm_compute. reflexivity.
  - intros mkv [fobjs Hl]. rewrite lookup_insert in Hl.
    destruct (decide ("v" = mkv)) as [<-|Hne]; [|by rewrite lookup_empty in Hl].
    eexists. split; [left|reflexivity].
Defined.
